(** * AI Diet Tracker: the meal-logging and nutrition-aggregation pipeline

    A shallow embedding of [app.py].  A finite number is held by its exact
    rational value in [Q]; the arithmetic pandas does on a column (its sum
    and mean, with the rounding, the order and the wrap-around of the
    column's type) is a parameter of the aggregations.  A pandas
    [Timestamp] is its integer count of nanoseconds since the epoch, a
    [datetime.date] its day number, a DataFrame its column names and its
    list of rows, a Python [str] its UTF-8 bytes, and the remote sheets are
    lists of rows.  What the remote services answer (the estimator's JSON,
    whether a sheet call succeeds) is an input of the handlers. *)

From Stdlib Require Import ZArith QArith Qminmax List String Ascii Bool Lia.
From Stdlib Require Import DecimalString.
Import ListNotations.

Open Scope Z_scope.

(** ** Values held by a sheet cell *)

Module Cell.

(** [get_all_records] numericises every cell text that reads as a number:
    a cell reaches pandas either as a number or as a text that is not
    one. *)
Inductive cell : Type :=
| CNum (q : Q)
| CStr (s : string).

(** [series == user] for a Python [str]: a number never equals it. *)
Definition eq_str (c : cell) (s : string) : bool :=
  match c with
  | CStr t => String.eqb t s
  | CNum _ => false
  end.

(** [pd.to_numeric(col, errors='coerce')] on one value; [None] is NaN. *)
Definition to_numeric_coerce (c : cell) : option Q :=
  match c with
  | CNum q => Some q
  | CStr _ => None
  end.

(** [.fillna(0)] on one value. *)
Definition fillna (d : Q) (v : option Q) : Q :=
  match v with
  | Some q => q
  | None => d
  end.

(** Whether the cell holds a number. *)
Definition is_num (c : cell) : bool :=
  match c with
  | CNum _ => true
  | CStr _ => false
  end.

(** The number a well-formed cell holds, zero for a malformed one. *)
Definition value (c : cell) : Q :=
  match c with
  | CNum q => q
  | CStr _ => 0%Q
  end.

End Cell.
Export Cell.

(** ** Dates *)

Module Dates.

(** Nanoseconds in a day: a pandas Timestamp counts nanoseconds. *)
Definition NS_PER_DAY : Z := 86400000000000.

(** [Timestamp.date()]: the calendar day, time of day dropped. *)
Definition dt_date (ts : Z) : Z := ts / NS_PER_DAY.

(** [pd.to_datetime] of a '%Y-%m-%d' text: midnight of that day. *)
Definition midnight (d : Z) : Z := d * NS_PER_DAY.

(** [ts] falls on calendar day [d], at any time of day. *)
Definition on_day (ts d : Z) : Prop :=
  d * NS_PER_DAY <= ts < (d + 1) * NS_PER_DAY.

(** [series.dt.date == d]; a missing date (NaT) equals nothing. *)
Definition date_is (dt : option Z) (d : Z) : bool :=
  match dt with
  | Some ts => dt_date ts =? d
  | None => false
  end.

(** [(series.dt.date >= lo) & (series.dt.date <= hi)]. *)
Definition date_between (dt : option Z) (lo hi : Z) : bool :=
  match dt with
  | Some ts => (lo <=? dt_date ts) && (dt_date ts <=? hi)
  | None => false
  end.

End Dates.
Export Dates.

(** ** Rows and frames *)

(** One row of [Logs].  The five nutrition columns have type [A]: cells as
    fetched, floats once [get_daily_logs] has coerced them. *)
Record Row (A : Type) : Type := mkRow {
  User : cell;
  Timestamp : string;
  Date : option Z;
  Meal : string;
  items_text : string;
  calories_kcal : A;
  protein_g : A;
  carbs_g : A;
  fat_g : A;
  fiber_g : A;
  json_data : string
}.

Arguments mkRow {A}.
Arguments User {A}.
Arguments Timestamp {A}.
Arguments Date {A}.
Arguments Meal {A}.
Arguments items_text {A}.
Arguments calories_kcal {A}.
Arguments protein_g {A}.
Arguments carbs_g {A}.
Arguments fat_g {A}.
Arguments fiber_g {A}.
Arguments json_data {A}.

(** A DataFrame: its column names and its rows. *)
Record DataFrame (R : Type) : Type := mkDF {
  columns : list string;
  rows : list R
}.

Arguments mkDF {R}.
Arguments columns {R}.
Arguments rows {R}.

Definition LOGS_COLUMNS : list string :=
  ["User"; "Timestamp"; "Date"; "Meal"; "items_text"; "calories_kcal";
   "protein_g"; "carbs_g"; "fat_g"; "fiber_g"; "json_data"]%string.

(** [pd.DataFrame()]. *)
Definition empty_frame {R : Type} : DataFrame R := mkDF [] [].

(** [pd.DataFrame(records)]: no record, no column. *)
Definition frame_of_records {R : Type} (cols : list string) (recs : list R)
  : DataFrame R :=
  match recs with
  | [] => empty_frame
  | _ => mkDF cols recs
  end.

(** [df.empty]: some axis has length zero. *)
Definition df_empty {R : Type} (df : DataFrame R) : bool :=
  match rows df, columns df with
  | [], _ => true
  | _, [] => true
  | _, _ => false
  end.

(** [name in df.columns]. *)
Definition has_column {R : Type} (name : string) (df : DataFrame R) : bool :=
  existsb (String.eqb name) (columns df).

(** [df[mask]]. *)
Definition df_filter {R : Type} (p : R -> bool) (df : DataFrame R)
  : DataFrame R :=
  mkDF (columns df) (filter p (rows df)).

(** The sum of a list of numbers in exact arithmetic, from zero. *)
Definition series_sum (l : list Q) : Q := fold_left Qplus l 0%Q.

(** ** Aggregation: the daily summary *)

Module Daily.

(** The loop over the five columns of [get_daily_logs], on one row. *)
Definition coerce_row (r : Row cell) : Row Q :=
  let num c := fillna 0%Q (to_numeric_coerce c) in
  mkRow (User r) (Timestamp r) (Date r) (Meal r) (items_text r)
        (num (calories_kcal r)) (num (protein_g r)) (num (carbs_g r))
        (num (fat_g r)) (num (fiber_g r)) (json_data r).

Definition get_daily_logs (logs_df : DataFrame (Row cell)) (user : string)
           (selected_date : Z) : DataFrame (Row Q) :=
  if df_empty logs_df || negb (has_column "User" logs_df) then empty_frame
  else
    let user_df := df_filter (fun r => eq_str (User r) user) logs_df in
    let daily_df :=
      df_filter (fun r => date_is (Date r) selected_date) user_df in
    mkDF (columns daily_df) (map coerce_row (rows daily_df)).

Record Totals : Type := mkTotals {
  total_calories : Q;
  total_protein : Q;
  total_carbs : Q;
  total_fat : Q;
  total_fiber : Q
}.

Section PandasSum.

(** [daily_df[col].sum()] as pandas computes it for the column named
    [col] holding these numbers: the result of its own summation, with
    the rounding and the wrap-around of the column's type. *)
Variable col_sum : string -> list Q -> Q.

(** [daily_df[col].sum() if col in daily_df.columns else 0]. *)
Definition column_total_by (col : string) (f : Row Q -> Q)
           (daily_df : DataFrame (Row Q)) : Q :=
  if has_column col daily_df then col_sum col (map f (rows daily_df))
  else 0%Q.

Definition daily_totals_by (daily_df : DataFrame (Row Q)) : Totals :=
  mkTotals (column_total_by "calories_kcal" calories_kcal daily_df)
           (column_total_by "protein_g" protein_g daily_df)
           (column_total_by "carbs_g" carbs_g daily_df)
           (column_total_by "fat_g" fat_g daily_df)
           (column_total_by "fiber_g" fiber_g daily_df).

(** The daily summary as the page computes it from a snapshot of rows. *)
Definition daily_summary_by (logs : list (Row cell)) (user : string)
           (selected_date : Z) : Totals :=
  daily_totals_by
    (get_daily_logs (frame_of_records LOGS_COLUMNS logs) user selected_date).

End PandasSum.

(** The same with sums in exact arithmetic: what the page shows whenever
    the numbers and their partial sums are exactly representable. *)
Definition exact_sum (col : string) (l : list Q) : Q := series_sum l.

Definition daily_summary : list (Row cell) -> string -> Z -> Totals :=
  daily_summary_by exact_sum.

(** Specification side: the entry belongs to [user] and its date falls
    on calendar day [d], whatever the time of day. *)
Definition on_dayb (dt : option Z) (d : Z) : bool :=
  match dt with
  | Some ts => (d * NS_PER_DAY <=? ts) && (ts <? (d + 1) * NS_PER_DAY)
  | None => false
  end.

Definition matches (user : string) (d : Z) (r : Row cell) : bool :=
  eq_str (User r) user && on_dayb (Date r) d.

(** The numbers of one field over a list of entries, in their order; a
    malformed cell counts as 0. *)
Definition field_values (f : Row cell -> cell) (l : list (Row cell))
  : list Q :=
  map (fun r => value (f r)) l.


End Daily.
Export Daily.

(** ** Aggregation: the weekly trend *)

(** What a Python call gives: a value, or the exception it raised. *)
Inductive result (A : Type) : Type :=
| Ok (a : A)
| Raise (e : string).

Arguments Ok {A}.
Arguments Raise {A}.

Definition bind {A B : Type} (r : result A) (k : A -> result B) : result B :=
  match r with
  | Ok a => k a
  | Raise e => Raise e
  end.

Notation "x <- c ;; k" := (bind c (fun x => k))
  (at level 61, c at next level, right associativity).

Module Weekly.

(** One row added to the groups of [groupby]: the groups are kept in
    ascending key order, each with its values in row order. *)
Fixpoint group_add (k : Z) (v : cell) (g : list (Z * list cell))
  : list (Z * list cell) :=
  match g with
  | [] => [(k, [v])]
  | (k', vs) :: g' =>
      if k <? k' then (k, [v]) :: g
      else if k =? k' then (k', vs ++ [v]) :: g'
      else (k', vs) :: group_add k v g'
  end.

(** [df.groupby(df['Date'].dt.date)['calories_kcal']]; a row without a
    date belongs to no group. *)
Fixpoint groupby_date (l : list (Row cell)) (g : list (Z * list cell))
  : list (Z * list cell) :=
  match l with
  | [] => g
  | r :: l' =>
      match Date r with
      | Some ts =>
          groupby_date l' (group_add (dt_date ts) (calories_kcal r) g)
      | None => groupby_date l' g
      end
  end.

Definition is_text (c : cell) : bool := negb (is_num c).

Definition text_of (c : cell) : string :=
  match c with
  | CStr s => s
  | CNum _ => EmptyString
  end.

(** The sums as numbers; a text among them makes [mean] raise. *)
Fixpoint numeric_series (g : list (Z * cell)) : result (list (Z * Q)) :=
  match g with
  | [] => Ok []
  | (k, CNum q) :: g' => s <- numeric_series g' ;; Ok ((k, q) :: s)
  | (_, CStr _) :: _ => Raise "TypeError"
  end.

(** What [display_weekly_trend] shows: an information message, or the
    chart of [daily_calories] with the average of its caption. *)
Inductive trend : Type :=
| TrendInfo (msg : string)
| TrendChart (daily_calories : list (Z * Q)) (avg_calories : Q).

Section PandasGroups.

(** [.sum()] of one group of numbers and [.mean()] of the daily sums, as
    pandas computes them for the column at hand, with the rounding and the
    wrap-around of its type. *)
Variable group_sum : list Q -> Q.
Variable mean_of : list Q -> Q.

(** [.sum()] on the values of one group.  When a value is not a number the
    column holds Python objects and [+] is Python's: texts concatenate, a
    number and a text raise. *)
Definition group_total (vs : list cell) : result cell :=
  if forallb is_num vs then Ok (CNum (group_sum (map value vs)))
  else if forallb is_text vs
       then Ok (CStr (String.concat EmptyString (map text_of vs)))
       else Raise "TypeError".

Fixpoint group_totals (g : list (Z * list cell))
  : result (list (Z * cell)) :=
  match g with
  | [] => Ok []
  | (k, vs) :: g' =>
      t <- group_total vs ;;
      ts <- group_totals g' ;;
      Ok ((k, t) :: ts)
  end.

(** [df.groupby(df['Date'].dt.date)['calories_kcal'].sum()]. *)
Definition groupby_date_sum (l : list (Row cell))
  : result (list (Z * cell)) :=
  group_totals (groupby_date l []).

Definition display_weekly_trend_by (logs_df : DataFrame (Row cell))
           (user : string) (end_date : Z) : result trend :=
  if df_empty logs_df || negb (has_column "Date" logs_df) then
    Ok (TrendInfo "Log some meals to see your weekly trend.")
  else
    let user_df := df_filter (fun r => eq_str (User r) user) logs_df in
    if df_empty user_df then
      Ok (TrendInfo "No meals logged for this user yet.")
    else
      let start_date := end_date - 6 in
      let weekly_df :=
        df_filter (fun r => date_between (Date r) start_date end_date)
                  user_df in
      if df_empty weekly_df then
        Ok (TrendInfo "No meals logged in the selected 7-day period.")
      else
        g <- groupby_date_sum (rows weekly_df) ;;
        daily_calories <- numeric_series g ;;
        Ok (TrendChart daily_calories (mean_of (map snd daily_calories))).

(** The weekly trend as the page computes it from a snapshot of rows. *)
Definition weekly_trend_by (logs : list (Row cell)) (user : string)
           (end_date : Z) : result trend :=
  display_weekly_trend_by (frame_of_records LOGS_COLUMNS logs) user
                          end_date.



End PandasGroups.

(** The same in exact arithmetic: what the page shows whenever the numbers,
    their partial sums and the mean are exactly representable. *)
Definition series_mean (l : list Q) : Q :=
  (series_sum l / inject_Z (Z.of_nat (List.length l)))%Q.

Definition display_weekly_trend
  : DataFrame (Row cell) -> string -> Z -> result trend :=
  display_weekly_trend_by series_sum series_mean.

Definition weekly_trend : list (Row cell) -> string -> Z -> result trend :=
  weekly_trend_by series_sum series_mean.


End Weekly.
Export Weekly.

(** ** The progress bar *)

(** Python's [min(a, b)]: [b] only when it is strictly smaller. *)
Definition py_min (a b : Q) : Q := if Qlt_le_dec b a then b else a.

(** [min(total_calories / goal, 1.0) if goal > 0 else 0]. *)
Definition calorie_progress (total_calories : Q) (calorie_goal : Z) : Q :=
  if calorie_goal >? 0
  then py_min (total_calories / inject_Z calorie_goal) 1
  else 0%Q.

(** ** The Settings sheet and the calorie goal *)

Module Settings.

(** One row of the sheet: its cells in columns A, B and C. *)
Record SettingRow : Type := mkSetting {
  col_A : cell;
  col_B : cell;
  col_C : cell
}.

(** The sheet as the rows of its grid, top to bottom; the first row holds
    the titles User, Setting, Value. *)
Definition worksheet : Type := list SettingRow.

Definition TITLE_ROW : SettingRow :=
  mkSetting (CStr "User") (CStr "Setting") (CStr "Value").

(** [ws.find(user, in_column=1)]: the index of the first row whose cell in
    column A reads [user] (row number minus one). *)
Fixpoint find_in_column1 (user : string) (ws : worksheet) : option nat :=
  match ws with
  | [] => None
  | r :: ws' =>
      if eq_str (col_A r) user then Some O
      else option_map S (find_in_column1 user ws')
  end.

(** [ws.update_cell(row, 3, v)]. *)
Fixpoint update_cell3 (i : nat) (v : cell) (ws : worksheet) : worksheet :=
  match ws, i with
  | [], _ => []
  | r :: ws', O => mkSetting (col_A r) (col_B r) v :: ws'
  | r :: ws', S j => r :: update_cell3 j v ws'
  end.

(** [ws.append_row(row)]. *)
Definition append_row (r : SettingRow) (ws : worksheet) : worksheet :=
  ws ++ [r].

(** [set_calorie_goal]; [ok] tells whether the sheet answers.  A call that
    raises is caught, reports [False] and leaves the sheet as it was. *)
Definition set_calorie_goal (ok : bool) (settings_ws : worksheet)
           (user : string) (new_goal : Z) : bool * worksheet :=
  if ok then
    match find_in_column1 user settings_ws with
    | Some i =>
        (true, update_cell3 i (CNum (inject_Z new_goal)) settings_ws)
    | None =>
        (true,
         append_row (mkSetting (CStr user) (CStr "Calorie Goal")
                               (CNum (inject_Z new_goal)))
                    settings_ws)
    end
  else (false, settings_ws).

(** The label a title cell gives its column; a numeral is none of the
    names the code asks for. *)
Definition label (c : cell) : string :=
  match c with
  | CStr s => s
  | CNum _ => EmptyString
  end.

(** [pd.DataFrame(ws.get_all_records())]: the first row names the
    columns, the others are the records. *)
Definition settings_frame (ws : worksheet) : DataFrame SettingRow :=
  match ws with
  | [] => empty_frame
  | t :: data =>
      frame_of_records [label (col_A t); label (col_B t); label (col_C t)]
                       data
  end.

(** [row[name]]: the cell under the first column so labelled. *)
Definition column (cols : list string) (name : string) (r : SettingRow)
  : option cell :=
  match cols with
  | [a; b; c] =>
      if String.eqb a name then Some (col_A r)
      else if String.eqb b name then Some (col_B r)
      else if String.eqb c name then Some (col_C r)
      else None
  | _ => None
  end.

(** Python's [int(x)] on a cell: a number is truncated towards zero.  A
    text cell is one that [get_all_records] did not read as a number, and
    [int] raises on it; the one text it would accept, an integer written
    with underscores, is left out. *)
Definition py_int (c : cell) : result Z :=
  match c with
  | CNum q => Ok (Z.quot (Qnum q) (Zpos (Qden q)))
  | CStr _ => Raise "ValueError"
  end.

Definition cell_is (c : option cell) (s : string) : bool :=
  match c with
  | Some x => eq_str x s
  | None => false
  end.

Definition get_calorie_goal (settings_df : DataFrame SettingRow)
           (user : string) : result Z :=
  if df_empty settings_df || negb (has_column "User" settings_df)
  then Ok 2000
  else if negb (has_column "Setting" settings_df) then Raise "KeyError"
  else
    let cols := columns settings_df in
    let user_settings :=
      filter (fun r => cell_is (column cols "User" r) user
                       && cell_is (column cols "Setting" r) "Calorie Goal")
             (rows settings_df) in
    match user_settings with
    | r :: _ =>
        match column cols "Value" r with
        | Some v => py_int v
        | None => Raise "KeyError"
        end
    | [] => Ok 2000
    end.

(** Number of rows whose key cell (column A) reads [user]. *)
Definition user_rows (user : string) (ws : worksheet) : nat :=
  List.length (filter (fun r => eq_str (col_A r) user) ws).

End Settings.
Export Settings.

(** ** Python strings *)

Module PyStr.

Definition NEWLINE : ascii := "010"%char.

(** The text with these bytes. *)
Definition bytes (l : list nat) : string :=
  string_of_list_ascii (map ascii_of_nat l).

(** The characters [str.isspace] accepts, which [str.strip] removes, by
    their UTF-8 bytes: U+0009 to U+000D, U+001C to U+0020, U+0085, U+00A0,
    U+1680, U+2000 to U+200A, U+2028, U+2029, U+202F, U+205F, U+3000. *)
Definition WHITESPACE : list string :=
  Eval cbv in
  map bytes
      [[9]; [10]; [11]; [12]; [13]; [28]; [29]; [30]; [31]; [32];
       [194; 133]; [194; 160]; [225; 154; 128];
       [226; 128; 128]; [226; 128; 129]; [226; 128; 130]; [226; 128; 131];
       [226; 128; 132]; [226; 128; 133]; [226; 128; 134]; [226; 128; 135];
       [226; 128; 136]; [226; 128; 137]; [226; 128; 138];
       [226; 128; 168]; [226; 128; 169]; [226; 128; 175];
       [226; 129; 159]; [227; 128; 128]]%nat.

(** The text is one white-space character. *)
Definition is_whitespace (s : string) : bool :=
  existsb (String.eqb s) WHITESPACE.

(** [s.lstrip()]: white-space characters of one, two or three bytes are
    dropped from the left. *)
Fixpoint lstrip (s : string) : string :=
  match s with
  | EmptyString => EmptyString
  | String a s1 =>
      if is_whitespace (String a EmptyString) then lstrip s1
      else
        match s1 with
        | EmptyString => s
        | String b s2 =>
            if is_whitespace (String a (String b EmptyString))
            then lstrip s2
            else
              match s2 with
              | EmptyString => s
              | String c s3 =>
                  if is_whitespace
                       (String a (String b (String c EmptyString)))
                  then lstrip s3
                  else s
              end
        end
  end.

(** [s.rstrip()]: what is left of the tail is dropped with its first byte
    when the two make one white-space character. *)
Fixpoint rstrip (s : string) : string :=
  match s with
  | EmptyString => EmptyString
  | String a s' =>
      let t := rstrip s' in
      if is_whitespace (String a t) then EmptyString else String a t
  end.

(** [s.strip()]. *)
Definition strip (s : string) : string := rstrip (lstrip s).

(** Truth value of a Python string: it is not empty. *)
Definition truthy (s : string) : bool :=
  match s with
  | EmptyString => false
  | String _ _ => true
  end.

(** [s.split("\n")]. *)
Fixpoint split_lines (s : string) : list string :=
  match s with
  | EmptyString => [EmptyString]
  | String a s' =>
      if Ascii.eqb a NEWLINE then EmptyString :: split_lines s'
      else
        match split_lines s' with
        | l :: ls => String a l :: ls
        | [] => [String a EmptyString]
        end
  end.

(** [sep.join(l)]. *)
Definition join (sep : string) (l : list string) : string :=
  String.concat sep l.

(** [[line.strip() for line in s.split("\n") if line.strip()]]. *)
Definition items_of_input (items_input : string) : list string :=
  map strip (filter (fun line => truthy (strip line))
                    (split_lines items_input)).

End PyStr.
Export PyStr.

(** ** The estimator's answer *)

Module Json.

(** What [json.loads] returns for a JSON text: an integer literal is a
    Python [int], a literal with a fraction or an exponent a [float], here
    a finite one by its exact value; the constants NaN and Infinity and a
    literal beyond the doubles are left out. *)
#[local] Set Warnings "-register-all".
Inductive json : Type :=
| JNull
| JBool (b : bool)
| JNum (q : Q)
| JInt (z : Z)
| JStr (s : string)
| JArr (l : list json)
| JObj (fields : list (string * json)).

(** [d.get(k)] on the dict of a JSON object: of two members with the same
    name [json.loads] keeps the last. *)
Fixpoint dict_get (k : string) (fields : list (string * json))
  : option json :=
  match fields with
  | [] => None
  | (k', v) :: fs =>
      match dict_get k fs with
      | Some w => Some w
      | None => if String.eqb k' k then Some v else None
      end
  end.

(** Python's [float(n)] on an [int]: the nearest double, a tie going to
    the even significand, and OverflowError beyond the doubles. *)
Definition float_of_int (z : Z) : result Q :=
  let a := Z.abs z in
  if a <? 2 ^ 53 then Ok (inject_Z z)
  else
    let e := Z.log2 a - 52 in
    let m := a / 2 ^ e in
    let r := a mod 2 ^ e in
    let half := 2 ^ (e - 1) in
    let m' := if (half <? r) || ((half =? r) && Z.odd m)
              then m + 1 else m in
    let v := m' * 2 ^ e in
    if 2 ^ 1024 <=? v then Raise "OverflowError"
    else Ok (inject_Z (Z.sgn z * v)).

End Json.
Export Json.

(** ** The session and its handlers *)

Module App.

(** What a handler shows. *)
Inductive message : Type :=
| Success (text : string)
| Error (text : string)
| Exception (name : string).

(** The two frames [fetch_all_data] returns. *)
Definition snapshot : Type :=
  (DataFrame (Row cell) * DataFrame SettingRow)%type.

(** The remote sheets, the entry of [st.cache_data] for [fetch_all_data],
    [st.session_state], and what the run has done so far: the prompts sent
    to the estimator and the messages shown. *)
Record app : Type := mkApp {
  logs_ws : list (Row cell);
  settings_ws : worksheet;
  cache : option snapshot;
  user : string;
  logs_df : option (DataFrame (Row cell));
  settings_df : option (DataFrame SettingRow);
  calorie_goal : Z;
  estimator_calls : list string;
  messages : list message
}.

Definition show (m : message) (a : app) : app :=
  mkApp (logs_ws a) (settings_ws a) (cache a) (user a) (logs_df a)
        (settings_df a) (calorie_goal a) (estimator_calls a)
        (messages a ++ [m]).

Definition set_cache (c : option snapshot) (a : app) : app :=
  mkApp (logs_ws a) (settings_ws a) c (user a) (logs_df a)
        (settings_df a) (calorie_goal a) (estimator_calls a) (messages a).

Definition set_logs_ws (l : list (Row cell)) (a : app) : app :=
  mkApp l (settings_ws a) (cache a) (user a) (logs_df a)
        (settings_df a) (calorie_goal a) (estimator_calls a) (messages a).

Definition set_settings_ws (w : worksheet) (a : app) : app :=
  mkApp (logs_ws a) w (cache a) (user a) (logs_df a)
        (settings_df a) (calorie_goal a) (estimator_calls a) (messages a).

Definition set_frames (l : option (DataFrame (Row cell)))
           (s : option (DataFrame SettingRow)) (a : app) : app :=
  mkApp (logs_ws a) (settings_ws a) (cache a) (user a) l s
        (calorie_goal a) (estimator_calls a) (messages a).

Definition set_goal (g : Z) (a : app) : app :=
  mkApp (logs_ws a) (settings_ws a) (cache a) (user a) (logs_df a)
        (settings_df a) g (estimator_calls a) (messages a).

Definition call_estimator (prompt : string) (a : app) : app :=
  mkApp (logs_ws a) (settings_ws a) (cache a) (user a) (logs_df a)
        (settings_df a) (calorie_goal a) (estimator_calls a ++ [prompt])
        (messages a).

(** The body of [fetch_all_data]: both sheets read, or two empty frames
    when reading raises.  A sheet row is kept as the record that
    [get_all_records] and [pd.to_datetime] make of it. *)
Definition read_sheets (ok : bool) (a : app) : snapshot :=
  if ok
  then (frame_of_records LOGS_COLUMNS (logs_ws a),
        settings_frame (settings_ws a))
  else (empty_frame, empty_frame).

(** [fetch_all_data(clients)] under [st.cache_data]: the cached value
    while there is one, else the body is run and its value cached. *)
Definition fetch_all_data (ok : bool) (a : app) : snapshot * app :=
  match cache a with
  | Some snap => (snap, a)
  | None =>
      let snap := read_sheets ok a in
      (snap,
       set_cache (Some snap)
                 (if ok then a else show (Error "Error fetching data") a))
  end.

(** The cached value is dropped when its 60 seconds are over. *)
Definition ttl_expired (a : app) : app := set_cache None a.

(** The top of the script: the frames are fetched when the session has
    none. *)
Definition load_session (ok : bool) (a : app) : app :=
  match logs_df a, settings_df a with
  | Some _, Some _ => a
  | _, _ =>
      let '(snap, a') := fetch_all_data ok a in
      set_frames (Some (fst snap)) (Some (snd snap)) a'
  end.

(** The button "Refresh Data from Sheet". *)
Definition on_refresh (a : app) : app :=
  set_frames None None (set_cache None a).

(** [f"{n}"] for a Python [int]. *)
Definition str_of_int (n : Z) : string :=
  NilZero.string_of_int (Z.to_int n).

(** The form "Save Goal".  The text of a caught exception is left out of
    the error shown. *)
Definition on_save_goal (ok : bool) (new_goal : Z) (a : app) : app :=
  let a1 := set_goal new_goal a in
  let '(saved, ws) := set_calorie_goal ok (settings_ws a1) (user a1)
                                       new_goal in
  if saved
  then set_cache None
         (show (Success ("Goal saved as " ++ str_of_int new_goal
                         ++ " kcal!"))
               (set_settings_ws ws a1))
  else show (Error "Could not save calorie goal") a1.

(** [new_row_dict]; its 'Date' is the text of the selected day, kept as
    the day. *)
Record NewRow : Type := mkNewRow {
  d_User : string;
  d_Timestamp : string;
  d_Date : Z;
  d_Meal : string;
  d_items_text : string;
  d_calories_kcal : Q;
  d_protein_g : Q;
  d_carbs_g : Q;
  d_fat_g : Q;
  d_fiber_g : Q;
  d_json_data : string
}.

(** [pd.DataFrame([new_row_dict])] with its 'Date' through
    [pd.to_datetime]. *)
Definition new_row_df (d : NewRow) : Row cell :=
  mkRow (CStr (d_User d)) (d_Timestamp d) (Some (midnight (d_Date d)))
        (d_Meal d) (d_items_text d)
        (CNum (d_calories_kcal d)) (CNum (d_protein_g d))
        (CNum (d_carbs_g d)) (CNum (d_fat_g d)) (CNum (d_fiber_g d))
        (d_json_data d).

(** [pd.concat([df, new], ignore_index=True)] for a one-row [new]. *)
Definition concat_row (df : DataFrame (Row cell)) (r : Row cell)
  : DataFrame (Row cell) :=
  mkDF (match columns df with [] => LOGS_COLUMNS | cols => cols end)
       (rows df ++ [r]).

(** [log_to_google_sheet]: the row appended, or the error shown. *)
Definition log_to_google_sheet (ok : bool) (r : Row cell) (a : app) : app :=
  if ok then set_logs_ws (logs_ws a ++ [r]) a
  else show (Error "Error saving to Google Sheets") a.

(** [f"Meal: {meal_name}\nItems:\n" + "\n".join(f"- {it}" ...)]. *)
Definition user_prompt (meal_name : string) (items_list : list string)
  : string :=
  let nl := String NEWLINE EmptyString in
  ("Meal: " ++ meal_name ++ nl ++ "Items:" ++ nl
   ++ join nl (map (fun it => "- " ++ it) items_list))%string.

Section Handlers.

(** [float(s)] on a Python [str], and [json.dumps]. *)
Variable float_of_str : string -> option Q.
Variable json_dumps : json -> string.

(** Python's [float(x)] on a JSON value. *)
Definition py_float (v : json) : result Q :=
  match v with
  | JNum q => Ok q
  | JInt z => float_of_int z
  | JBool b => Ok (if b then 1 else 0)%Q
  | JStr s =>
      match float_of_str s with
      | Some q => Ok q
      | None => Raise "ValueError"
      end
  | _ => Raise "TypeError"
  end.

(** [parsed_data.get('totals', {})]. *)
Definition get_totals (parsed_data : json) : result json :=
  match parsed_data with
  | JObj fields =>
      match dict_get "totals" fields with
      | Some t => Ok t
      | None => Ok (JObj [])
      end
  | _ => Raise "AttributeError"
  end.

(** [float(totals.get(k, 0))]. *)
Definition total_field (totals : json) (k : string) : result Q :=
  match totals with
  | JObj fields =>
      match dict_get k fields with
      | Some v => py_float v
      | None => Ok 0%Q
      end
  | _ => Raise "AttributeError"
  end.

Definition new_row_dict (user : string) (now : string)
           (selected_date : Z) (meal_name : string)
           (items_list : list string) (parsed_data : json)
  : result NewRow :=
  totals <- get_totals parsed_data ;;
  cal <- total_field totals "calories_kcal" ;;
  pro <- total_field totals "protein_g" ;;
  car <- total_field totals "carbs_g" ;;
  fat <- total_field totals "fat_g" ;;
  fib <- total_field totals "fiber_g" ;;
  Ok (mkNewRow user now selected_date meal_name (join "; " items_list)
               cal pro car fat fib (json_dumps parsed_data)).

(** The form "Log <meal>".  [response] is what [get_nutrition_data]
    followed by [json.loads] gives ([None] when either raises), [now]
    the clock's text and [write_ok] whether the sheet takes the row. *)
Definition on_log_meal (meal_name items_input : string)
           (selected_date : Z) (now : string) (response : option json)
           (write_ok : bool) (a : app) : app :=
  if truthy (strip items_input) then
    let items_list := items_of_input items_input in
    let a1 := call_estimator (user_prompt meal_name items_list) a in
    match response with
    | None => show (Exception "estimator") a1
    | Some parsed_data =>
        match new_row_dict (user a1) now selected_date meal_name
                           items_list parsed_data with
        | Raise e => show (Exception e) a1
        | Ok d =>
            match logs_df a1 with
            | None => show (Exception "AttributeError") a1
            | Some df =>
                let a2 :=
                  set_frames (Some (concat_row df (new_row_df d)))
                             (settings_df a1) a1 in
                let a3 := log_to_google_sheet write_ok (new_row_df d) a2 in
                show (Success (meal_name ++ " logged!")) a3
            end
        end
    end
  else show (Error ("Please enter items for " ++ meal_name ++ ".")) a.

End Handlers.

End App.
Export App.

(** ** Definitions used by the statements *)

(** A log of [user] at instant [ts] with [kcal] calories. *)
Definition log_at (user : string) (ts : Z) (kcal : Q) : Row cell :=
  mkRow (CStr user) EmptyString (Some ts) "Breakfast" EmptyString
        (CNum kcal) (CNum 0) (CNum 0) (CNum 0) (CNum 0) EmptyString.

(** A log of [user] at instant [ts] whose calories cell holds a text. *)
Definition malformed_log_at (user : string) (ts : Z) (text : string)
  : Row cell :=
  mkRow (CStr user) EmptyString (Some ts) "Lunch" EmptyString
        (CStr text) (CNum 7) (CNum 0) (CNum 0) (CNum 0) EmptyString.

(** The text is empty or made of white-space characters only. *)
Inductive blank : string -> Prop :=
| blank_nil : blank EmptyString
| blank_cons (w s : string) :
    In w WHITESPACE -> blank s -> blank (w ++ s)%string.

(** [item] is [line] without the white space at its two ends. *)
Definition stripped_of (line item : string) : Prop :=
  (exists l t, blank l /\ blank t /\ line = (l ++ item ++ t)%string)
  /\ (forall w rest, In w WHITESPACE -> item <> (w ++ rest)%string)
  /\ (forall w rest, In w WHITESPACE -> item <> (rest ++ w)%string).

(** [items] are the lines that are not blank, in their order, each
    without the white space at its two ends. *)
Inductive items_of_lines : list string -> list string -> Prop :=
| items_nil : items_of_lines [] []
| items_skip (line : string) (lines items : list string) :
    blank line -> items_of_lines lines items ->
    items_of_lines (line :: lines) items
| items_keep (line item : string) (lines items : list string) :
    ~ blank line -> stripped_of line item -> items_of_lines lines items ->
    items_of_lines (line :: lines) (item :: items).


(** The five nutrition columns. *)
Definition NUMERIC_COLUMNS : list string :=
  ["calories_kcal"; "protein_g"; "carbs_g"; "fat_g"; "fiber_g"]%string.

(** All five nutrition cells of a row hold numbers. *)
Definition all_numeric (r : Row cell) : bool :=
  is_num (calories_kcal r) && is_num (protein_g r) && is_num (carbs_g r)
  && is_num (fat_g r) && is_num (fiber_g r).

(** What the answer holds under key [k] of its totals object, if it is an
    object that has a totals object with that key. *)
Definition totals_member (parsed_data : json) (k : string) : option json :=
  match parsed_data with
  | JObj fields =>
      match dict_get "totals" fields with
      | Some (JObj members) => dict_get k members
      | _ => None
      end
  | _ => None
  end.

(** The answer is an object without key [k] in its totals: it has no
    totals, or its totals are an object that lacks the key. *)
Definition totals_lack (parsed_data : json) (k : string) : Prop :=
  exists fields,
    parsed_data = JObj fields
    /\ (dict_get "totals" fields = None
        \/ exists members,
             dict_get "totals" fields = Some (JObj members)
             /\ dict_get k members = None).


(** Key [k] of the answer's totals is missing or holds a float. *)
Definition missing_or_float (parsed_data : json) (k : string) : Prop :=
  totals_lack parsed_data k
  \/ exists q, totals_member parsed_data k = Some (JNum q).

(** Key [k] of the answer's totals is missing, or holds a float or an
    integer below 2^53 in magnitude. *)
Definition missing_or_number (parsed_data : json) (k : string) : Prop :=
  missing_or_float parsed_data k
  \/ exists z, totals_member parsed_data k = Some (JInt z)
               /\ Z.abs z < 2 ^ 53.

(** A session before its first run: nothing cached, nothing loaded. *)
Definition cold_start (user : string) (logs : list (Row cell))
           (settings : worksheet) : app :=
  mkApp logs settings None user None None 2000 [] [].

(** The groups of the weekly sum, for the proofs. *)
Module Groups.








End Groups.

(** ** The rest of the page: session start and user switch *)

Module Session.

Definition USER_LIST : list string := ["Suyash"; "Divyanshi"]%string.

(** [u in USER_LIST]. *)
Definition in_user_list (u : string) : bool :=
  existsb (String.eqb u) USER_LIST.

(** [last_user if last_user in USER_LIST else USER_LIST[0]], where
    [cookies.get('last_user')] is [None] without the cookie. *)
Definition initial_user (last_user : option string) : string :=
  match last_user with
  | Some u => if in_user_list u then u else hd EmptyString USER_LIST
  | None => hd EmptyString USER_LIST
  end.

Definition set_user (u : string) (a : app) : app :=
  mkApp (logs_ws a) (settings_ws a) (cache a) u (logs_df a)
        (settings_df a) (calorie_goal a) (estimator_calls a) (messages a).

(** [on_user_change], run once the radio has put [new_user] in the session:
    the cookie written, and the session with the goal read from the frame
    it holds.  A raised exception is shown. *)
Definition on_user_change (new_user : string) (a : app) : string * app :=
  let a1 := set_user new_user a in
  (new_user,
   match settings_df a1 with
   | None => show (Exception "AttributeError") a1
   | Some df =>
       match get_calorie_goal df new_user with
       | Ok g => set_goal g a1
       | Raise e => show (Exception e) a1
       end
   end).

End Session.
Export Session.

(** * Theorems *)

(** ** Dates *)

Lemma NS_PER_DAY_pos : 0 < NS_PER_DAY.
Proof. reflexivity. Qed.

Lemma dt_date_on_day (ts d : Z) : dt_date ts = d <-> on_day ts d.
Proof.
  unfold dt_date, on_day.
  pose proof NS_PER_DAY_pos as Hpos.
  pose proof (Z.div_mod ts NS_PER_DAY ltac:(lia)) as Hdm.
  pose proof (Z.mod_pos_bound ts NS_PER_DAY Hpos) as Hb.
  split.
  - intros <-. lia.
  - intros [Hlo Hhi]. nia.
Qed.

Lemma date_is_on_dayb (dt : option Z) (d : Z) : date_is dt d = on_dayb dt d.
Proof.
  destruct dt as [ts|]; simpl; [|reflexivity].
  destruct (Z.eqb_spec (dt_date ts) d) as [E|E].
  - apply dt_date_on_day in E. destruct E as [Hlo Hhi].
    symmetry. apply andb_true_intro. split.
    + now apply Z.leb_le.
    + now apply Z.ltb_lt.
  - symmetry. apply not_true_is_false. intros H.
    apply andb_prop in H. destruct H as [Hlo Hhi].
    apply Z.leb_le in Hlo. apply Z.ltb_lt in Hhi.
    apply E, dt_date_on_day. split; assumption.
Qed.


(** ** Sums *)

Lemma fold_left_Qplus_acc (l : list Q) (a : Q) :
  (fold_left Qplus l a == a + fold_left Qplus l 0)%Q.
Proof.
  revert a. induction l as [|x l IH]; intros a; simpl.
  - now rewrite Qplus_0_r.
  - rewrite IH. rewrite (IH (0 + x)%Q). ring.
Qed.

Lemma series_sum_cons (x : Q) (l : list Q) :
  (series_sum (x :: l) == x + series_sum l)%Q.
Proof.
  unfold series_sum. simpl. rewrite fold_left_Qplus_acc. ring.
Qed.

Lemma filter_filter {A : Type} (p q : A -> bool) (l : list A) :
  filter p (filter q l) = filter (fun x => q x && p x) l.
Proof.
  induction l as [|x l IH]; simpl; [reflexivity|].
  destruct (q x); simpl; [destruct (p x)|]; now rewrite ?IH.
Qed.

Lemma filter_ext_eq {A : Type} (p q : A -> bool) (l : list A) :
  (forall x, p x = q x) -> filter p l = filter q l.
Proof.
  intros H. induction l as [|x l IH]; simpl; [reflexivity|].
  now rewrite H, IH.
Qed.

(** ** The daily summary *)

Lemma daily_rows (logs : list (Row cell)) (user : string) (d : Z) :
  rows (get_daily_logs (frame_of_records LOGS_COLUMNS logs) user d)
  = map coerce_row (filter (matches user d) logs).
Proof.
  destruct logs as [|r l]; [reflexivity|].
  unfold get_daily_logs.
  change (df_empty (frame_of_records LOGS_COLUMNS (r :: l))) with false.
  change (has_column "User" (frame_of_records LOGS_COLUMNS (r :: l)))
    with true.
  cbn [orb negb rows df_filter frame_of_records].
  rewrite filter_filter. f_equal.
  apply filter_ext_eq. intros x. unfold matches.
  now rewrite date_is_on_dayb.
Qed.

Lemma daily_columns (logs : list (Row cell)) (user : string) (d : Z) :
  columns (get_daily_logs (frame_of_records LOGS_COLUMNS logs) user d)
  = match logs with [] => [] | _ => LOGS_COLUMNS end.
Proof. destruct logs; reflexivity. Qed.

Lemma value_fillna (c : cell) : fillna 0 (to_numeric_coerce c) = value c.
Proof. now destruct c. Qed.

Lemma values_coerced (f : Row Q -> Q) (g : Row cell -> cell)
      (l : list (Row cell)) :
  (forall r, f (coerce_row r) = value (g r)) ->
  map f (map coerce_row l) = field_values g l.
Proof.
  intros Hfg. unfold field_values. rewrite map_map.
  apply map_ext. exact Hfg.
Qed.

Lemma column_total_sum (col_sum : string -> list Q -> Q) (col : string)
      (f : Row Q -> Q) (g : Row cell -> cell)
      (logs : list (Row cell)) (user : string) (d : Z) :
  (forall c, col_sum c [] = 0%Q) ->
  In col NUMERIC_COLUMNS ->
  (forall r, f (coerce_row r) = value (g r)) ->
  column_total_by col_sum col f
    (get_daily_logs (frame_of_records LOGS_COLUMNS logs) user d)
  = col_sum col (field_values g (filter (matches user d) logs)).
Proof.
  intros H0 Hcol Hfg. unfold column_total_by, has_column.
  rewrite daily_columns, daily_rows.
  destruct logs as [|r l].
  - simpl. now rewrite H0.
  - assert (existsb (String.eqb col) LOGS_COLUMNS = true) as ->.
    { simpl in Hcol.
      repeat (destruct Hcol as [<-|Hcol]; [reflexivity|]). contradiction. }
    f_equal. now apply values_coerced.
Qed.




(** ** The weekly trend *)

Section GroupFacts.

Import Groups.














End GroupFacts.

Section WeeklyFacts.

Import Groups.

Variable group_sum : list Q -> Q.
Variable mean_of : list Q -> Q.
Variable user : string.
Variable end_date : Z.

(** The mask of the weekly frame: the user's rows inside the window. *)
Let in_window (r : Row cell) : bool :=
  eq_str (User r) user && date_between (Date r) (end_date - 6) end_date.

Lemma df_empty_logs (l : list (Row cell)) :
  df_empty (mkDF LOGS_COLUMNS l) = match l with [] => true | _ => false end.
Proof. now destruct l. Qed.


Lemma weekly_chart (logs : list (Row cell)) :
  filter in_window logs <> [] ->
  weekly_trend_by group_sum mean_of logs user end_date
  = (g <- groupby_date_sum group_sum (filter in_window logs) ;;
     daily_calories <- numeric_series g ;;
     Ok (TrendChart daily_calories (mean_of (map snd daily_calories)))).
Proof.
  intros HW. destruct logs as [|r l]; [contradiction|].
  unfold weekly_trend_by, display_weekly_trend_by.
  change (df_empty (frame_of_records LOGS_COLUMNS (r :: l))) with false.
  change (has_column "Date" (frame_of_records LOGS_COLUMNS (r :: l)))
    with true.
  cbn [orb negb frame_of_records]. unfold df_filter. cbn [columns rows].
  rewrite !df_empty_logs, filter_filter.
  fold in_window.
  destruct (filter (fun r0 => eq_str (User r0) user) (r :: l)) eqn:Hu.
  - exfalso. apply HW. unfold in_window. rewrite <- (filter_filter
      (fun r0 => date_between (Date r0) (end_date - 6) end_date)
      (fun r0 => eq_str (User r0) user)).
    now rewrite Hu.
  - destruct (filter in_window (r :: l)); [contradiction | reflexivity].
Qed.







End WeeklyFacts.





(** ** The progress bar *)

(** C10: for a non-negative daily total and a non-negative goal the progress
    fraction lies between 0 and 1; with a goal of 0 nothing is divided and
    the progress is 0, otherwise it is the ratio total/goal capped at 1. *)
Theorem calorie_progress_in_unit_interval (total_calories : Q)
        (calorie_goal : Z) :
  (0 <= total_calories)%Q -> 0 <= calorie_goal ->
  (0 <= calorie_progress total_calories calorie_goal)%Q
  /\ (calorie_progress total_calories calorie_goal <= 1)%Q
  /\ (calorie_goal = 0 -> calorie_progress total_calories calorie_goal = 0%Q)
  /\ (0 < calorie_goal ->
      (calorie_progress total_calories calorie_goal
       == Qmin (total_calories / inject_Z calorie_goal) 1)%Q).
Proof.
  intros Ht Hg. unfold calorie_progress, py_min.
  destruct (Z.gtb_spec calorie_goal 0) as [Hpos|Hzero].
  - assert (Hq : (0 < inject_Z calorie_goal)%Q).
    { change 0%Q with (inject_Z 0). rewrite <- Zlt_Qlt. lia. }
    assert (Hratio : (0 <= total_calories / inject_Z calorie_goal)%Q).
    { apply Qle_shift_div_l; [exact Hq|]. now rewrite Qmult_0_l. }
    destruct (Qlt_le_dec 1 (total_calories / inject_Z calorie_goal))
      as [Hlt|Hle].
    + repeat split; try discriminate; try lia.
      intros _. symmetry. apply Q.min_r. now apply Qlt_le_weak.
    + repeat split; try assumption; try lia.
      intros _. symmetry. now apply Q.min_l.
  - repeat split; try discriminate; try reflexivity; lia.
Qed.

Lemma calorie_progress_in_unit_interval_witness :
  (0 <= calorie_progress 1500 2000)%Q
  /\ (calorie_progress 1500 2000 <= 1)%Q
  /\ (calorie_progress 3000 0 = 0%Q)
  /\ (calorie_progress 1500 2000 == Qmin (1500 / inject_Z 2000) 1)%Q.
Proof.
  destruct (calorie_progress_in_unit_interval 1500 2000) as (H1 & H2 & _ & H4);
    [discriminate | lia |].
  destruct (calorie_progress_in_unit_interval 3000 0) as (_ & _ & H3 & _);
    [discriminate | lia |].
  split; [exact H1|]. split; [exact H2|]. split; [now apply H3|].
  apply H4. lia.
Defined.

(** ** The Settings sheet *)

Lemma find_none_rows (user : string) (ws : worksheet) :
  find_in_column1 user ws = None -> user_rows user ws = 0%nat.
Proof.
  unfold user_rows. induction ws as [|r ws IH]; simpl; [reflexivity|].
  destruct (eq_str (col_A r) user); [discriminate|].
  destruct (find_in_column1 user ws); [discriminate|]. intros _. now apply IH.
Qed.

Lemma find_some_rows (user : string) (ws : worksheet) (i : nat) :
  find_in_column1 user ws = Some i -> (1 <= user_rows user ws)%nat.
Proof.
  unfold user_rows. revert i. induction ws as [|r ws IH]; intros i; simpl;
    [discriminate|].
  destruct (eq_str (col_A r) user); simpl; [lia|].
  destruct (find_in_column1 user ws) as [j|]; [|discriminate].
  intros _. now apply (IH j).
Qed.

Lemma find_some_first (user : string) (ws : worksheet) (i : nat) :
  find_in_column1 user ws = Some i ->
  exists r,
    nth_error ws i = Some r
    /\ eq_str (col_A r) user = true
    /\ forall j r', (j < i)%nat -> nth_error ws j = Some r' ->
                    eq_str (col_A r') user = false.
Proof.
  revert i. induction ws as [|r ws IH]; intros i; simpl; [discriminate|].
  destruct (eq_str (col_A r) user) eqn:E.
  - intros [= <-]. exists r. repeat split; [assumption|]. intros j r' Hj. lia.
  - destruct (find_in_column1 user ws) as [k|]; [|discriminate].
    intros [= <-]. destruct (IH k eq_refl) as (r0 & Hn & Hu & Hfirst).
    exists r0. repeat split; try assumption.
    intros [|j] r' Hj Hr'; simpl in Hr'.
    + now injection Hr' as <-.
    + apply (Hfirst j); [lia | assumption].
Qed.

Lemma find_append_new (user : string) (ws : worksheet) (b c : cell) :
  find_in_column1 user ws = None ->
  find_in_column1 user (append_row (mkSetting (CStr user) b c) ws)
  = Some (List.length ws).
Proof.
  unfold append_row. induction ws as [|r ws IH]; simpl.
  - intros _. now rewrite String.eqb_refl.
  - destruct (eq_str (col_A r) user); [discriminate|].
    destruct (find_in_column1 user ws); [discriminate|].
    intros _. now rewrite IH.
Qed.

Lemma update_appended (ws : worksheet) (a b c v : cell) :
  update_cell3 (List.length ws) v (append_row (mkSetting a b c) ws)
  = append_row (mkSetting a b v) ws.
Proof.
  unfold append_row. induction ws as [|r ws IH]; simpl; [reflexivity|].
  now rewrite IH.
Qed.

Lemma find_update (user : string) (v : cell) (ws : worksheet) (i : nat) :
  find_in_column1 user (update_cell3 i v ws) = find_in_column1 user ws.
Proof.
  revert i. induction ws as [|r ws IH]; intros [|i]; simpl; try reflexivity.
  now rewrite IH.
Qed.

Lemma update_update (v : cell) (ws : worksheet) (i : nat) :
  update_cell3 i v (update_cell3 i v ws) = update_cell3 i v ws.
Proof.
  revert i. induction ws as [|r ws IH]; intros [|i]; simpl; try reflexivity.
  now rewrite IH.
Qed.

Lemma user_rows_update (user : string) (v : cell) (ws : worksheet) (i : nat) :
  user_rows user (update_cell3 i v ws) = user_rows user ws.
Proof.
  unfold user_rows. revert i.
  induction ws as [|r ws IH]; intros [|i]; simpl; try reflexivity.
  all: destruct (eq_str (col_A r) user); simpl; now rewrite ?IH.
Qed.

Lemma length_update (v : cell) (ws : worksheet) (i : nat) :
  List.length (update_cell3 i v ws) = List.length ws.
Proof.
  revert i. induction ws as [|r ws IH]; intros [|i]; simpl; try reflexivity.
  now rewrite IH.
Qed.

Lemma user_rows_append (user : string) (b c : cell) (ws : worksheet) :
  user_rows user (append_row (mkSetting (CStr user) b c) ws)
  = S (user_rows user ws).
Proof.
  unfold user_rows, append_row. rewrite filter_app, length_app. simpl.
  rewrite String.eqb_refl. simpl. lia.
Qed.

Lemma set_calorie_goal_twice (ws : worksheet) (user : string) (g : Z) :
  snd (set_calorie_goal true (snd (set_calorie_goal true ws user g)) user g)
  = snd (set_calorie_goal true ws user g).
Proof.
  unfold set_calorie_goal.
  destruct (find_in_column1 user ws) as [i|] eqn:Hf; cbn [snd].
  - rewrite find_update, Hf. cbn [snd]. apply update_update.
  - rewrite find_append_new by assumption. cbn [snd].
    apply update_appended.
Qed.

(** C3: saving the same goal twice in succession leaves the sheet as the
    first save left it, with exactly one row for the user when it had at
    most one before.  The save looks for the user in the first column: when
    a row is found, the first such row has its value cell overwritten in
    place and no row is added; only when none is found is a row appended. *)
Theorem upsert_setting_twice_one_row (ws : worksheet) (user : string)
        (g : Z) :
  let once := snd (set_calorie_goal true ws user g) in
  let twice := snd (set_calorie_goal true once user g) in
  twice = once
  /\ user_rows user twice = Nat.max 1 (user_rows user ws)
  /\ ((user_rows user ws <= 1)%nat -> user_rows user twice = 1%nat)
  /\ (find_in_column1 user ws = None ->
      once = ws ++ [mkSetting (CStr user) (CStr "Calorie Goal")
                              (CNum (inject_Z g))])
  /\ (forall i, find_in_column1 user ws = Some i ->
        once = update_cell3 i (CNum (inject_Z g)) ws
        /\ List.length once = List.length ws
        /\ exists r,
             nth_error ws i = Some r
             /\ eq_str (col_A r) user = true
             /\ (forall j r', (j < i)%nat -> nth_error ws j = Some r' ->
                              eq_str (col_A r') user = false)
             /\ nth_error once i
                = Some (mkSetting (col_A r) (col_B r) (CNum (inject_Z g)))).
Proof.
  cbv zeta. rewrite set_calorie_goal_twice.
  assert (Hcount : user_rows user (snd (set_calorie_goal true ws user g))
                   = Nat.max 1 (user_rows user ws)).
  { unfold set_calorie_goal.
    destruct (find_in_column1 user ws) as [i|] eqn:Hf; cbn [snd].
    - rewrite user_rows_update. apply find_some_rows in Hf. lia.
    - rewrite user_rows_append, (find_none_rows _ _ Hf). reflexivity. }
  split; [reflexivity|]. split; [exact Hcount|]. split; [|split].
  - intros Hle. rewrite Hcount. lia.
  - intros Hf. unfold set_calorie_goal. now rewrite Hf.
  - intros i Hf. unfold set_calorie_goal. rewrite Hf. cbn [snd].
    split; [reflexivity|]. split; [apply length_update|].
    destruct (find_some_first _ _ _ Hf) as (r & Hn & Hu & Hfirst).
    exists r. repeat split; try assumption.
    clear Hf Hu Hfirst Hcount. revert i Hn.
    induction ws as [|r0 ws IH]; intros [|i]; simpl; try discriminate.
    + now intros [= ->].
    + apply IH.
Qed.

Lemma upsert_setting_twice_one_row_witness :
  (user_rows "Suyash" [TITLE_ROW] <= 1)%nat
  /\ user_rows "Suyash"
       (snd (set_calorie_goal true
               (snd (set_calorie_goal true [TITLE_ROW] "Suyash" 1800))
               "Suyash" 1800)) = 1%nat
  /\ snd (set_calorie_goal true [TITLE_ROW] "Suyash" 1800)
     = [TITLE_ROW] ++ [mkSetting (CStr "Suyash") (CStr "Calorie Goal")
                                 (CNum (inject_Z 1800))]
  /\ snd (set_calorie_goal true
            [TITLE_ROW; mkSetting (CStr "Suyash") (CStr "Calorie Goal")
                                  (CNum 2000)] "Suyash" 1800)
     = update_cell3 1 (CNum (inject_Z 1800))
         [TITLE_ROW; mkSetting (CStr "Suyash") (CStr "Calorie Goal")
                               (CNum 2000)].
Proof.
  destruct (upsert_setting_twice_one_row [TITLE_ROW] "Suyash" 1800)
    as (_ & _ & H3 & H4 & _).
  destruct (upsert_setting_twice_one_row
              [TITLE_ROW; mkSetting (CStr "Suyash") (CStr "Calorie Goal")
                                    (CNum 2000)] "Suyash" 1800)
    as (_ & _ & _ & _ & H5).
  split; [vm_compute; lia|]. split; [apply H3; vm_compute; lia|].
  split; [apply H4; reflexivity|].
  apply (H5 1%nat). reflexivity.
Defined.

(** ** Python strings *)

Lemma append_nil_r (s : string) : (s ++ EmptyString)%string = s.
Proof. induction s as [|a s IH]; simpl; [reflexivity | now rewrite IH]. Qed.

Lemma append_assoc (s t u : string) :
  ((s ++ t) ++ u)%string = (s ++ t ++ u)%string.
Proof. induction s as [|a s IH]; simpl; [reflexivity | now rewrite IH]. Qed.

Lemma length_append (s t : string) :
  String.length (s ++ t) = (String.length s + String.length t)%nat.
Proof. induction s as [|a s IH]; simpl; [reflexivity | now rewrite IH]. Qed.

Lemma is_whitespace_In (s : string) :
  is_whitespace s = true <-> In s WHITESPACE.
Proof.
  unfold is_whitespace. rewrite existsb_exists. split.
  - intros (w & Hw & E). apply String.eqb_eq in E. now subst.
  - intros H. exists s. split; [assumption | apply String.eqb_refl].
Qed.

(** Each case of a white-space character. *)
Ltac each_whitespace H :=
  unfold WHITESPACE in H; cbn [In] in H;
  repeat (destruct H as [H|H]; [symmetry in H|]); [..|contradiction].

Lemma whitespace_nonempty (w : string) :
  In w WHITESPACE -> w <> EmptyString.
Proof. intros H. each_whitespace H; subst; discriminate. Qed.

Lemma lstrip_cons (a : ascii) (s1 : string) :
  lstrip (String a s1)
  = if is_whitespace (String a EmptyString) then lstrip s1
    else
      match s1 with
      | EmptyString => String a s1
      | String b s2 =>
          if is_whitespace (String a (String b EmptyString))
          then lstrip s2
          else
            match s2 with
            | EmptyString => String a s1
            | String c s3 =>
                if is_whitespace
                     (String a (String b (String c EmptyString)))
                then lstrip s3
                else String a s1
            end
      end.
Proof. destruct s1 as [|b [|c s3]]; reflexivity. Qed.

Lemma lstrip_whitespace (w s : string) :
  In w WHITESPACE -> lstrip (w ++ s) = lstrip s.
Proof. intros H. each_whitespace H; subst; reflexivity. Qed.

Lemma blank_app (l t : string) : blank l -> blank t -> blank (l ++ t).
Proof.
  intros Hl Ht. induction Hl as [|w s Hw _ IH]; [exact Ht|].
  rewrite append_assoc. now constructor.
Qed.

Lemma blank_whitespace (w : string) : In w WHITESPACE -> blank w.
Proof.
  intros H. rewrite <- (append_nil_r w). constructor; [assumption|].
  constructor.
Qed.

Lemma lstrip_blank (s : string) : blank s -> lstrip s = EmptyString.
Proof.
  induction 1 as [|w s Hw _ IH]; [reflexivity|].
  now rewrite lstrip_whitespace.
Qed.

(** A text whose first byte, first two bytes and first three bytes are no
    white-space character does not start with one. *)
Lemma no_whitespace_prefix (a : ascii) (s1 w rest : string) :
  is_whitespace (String a EmptyString) = false ->
  match s1 with
  | EmptyString => True
  | String b s2 =>
      is_whitespace (String a (String b EmptyString)) = false
      /\ match s2 with
         | EmptyString => True
         | String c _ =>
             is_whitespace (String a (String b (String c EmptyString)))
             = false
         end
  end ->
  In w WHITESPACE -> String a s1 <> (w ++ rest)%string.
Proof.
  intros H1 H23 Hw E.
  each_whitespace Hw; subst w; cbn [append] in E.
  all: injection E as -> E; try discriminate H1.
  all: destruct s1 as [|b s2]; [discriminate E|].
  all: injection E as -> E; destruct H23 as [H2 H3]; try discriminate H2.
  all: destruct s2 as [|c s3]; [discriminate E|].
  all: injection E as -> E; discriminate H3.
Qed.

Lemma lstrip_spec (n : nat) :
  forall s, (String.length s <= n)%nat ->
    (exists l, blank l /\ s = (l ++ lstrip s)%string)
    /\ (forall w rest, In w WHITESPACE ->
          lstrip s <> (w ++ rest)%string).
Proof.
  induction n as [|n IH]; intros s Hn.
  - destruct s; [|simpl in Hn; lia]. split.
    + exists EmptyString. split; [constructor | reflexivity].
    + intros w rest Hw E. apply (whitespace_nonempty w Hw).
      destruct w; [reflexivity | discriminate].
  - destruct s as [|a s1].
    + split.
      * exists EmptyString. split; [constructor | reflexivity].
      * intros w rest Hw E. apply (whitespace_nonempty w Hw).
        destruct w; [reflexivity | discriminate].
    + simpl in Hn. rewrite lstrip_cons.
      destruct (is_whitespace (String a EmptyString)) eqn:H1.
      { destruct (IH s1 ltac:(lia)) as [(l & Hl & El) Hno].
        split; [|exact Hno].
        exists (String a EmptyString ++ l)%string. split.
        - constructor; [now apply is_whitespace_In | assumption].
        - simpl. now rewrite <- El. }
      destruct s1 as [|b s2].
      { split.
        - exists EmptyString. split; [constructor | reflexivity].
        - intros w rest. now apply no_whitespace_prefix. }
      destruct (is_whitespace (String a (String b EmptyString))) eqn:H2.
      { simpl in Hn. destruct (IH s2 ltac:(lia)) as [(l & Hl & El) Hno].
        split; [|exact Hno].
        exists (String a (String b EmptyString) ++ l)%string. split.
        - constructor; [now apply is_whitespace_In | assumption].
        - simpl. now rewrite <- El. }
      destruct s2 as [|c s3].
      { split.
        - exists EmptyString. split; [constructor | reflexivity].
        - intros w rest. apply no_whitespace_prefix; [assumption|].
          split; [assumption | exact I]. }
      destruct (is_whitespace (String a (String b (String c EmptyString))))
        eqn:H3.
      { simpl in Hn. destruct (IH s3 ltac:(lia)) as [(l & Hl & El) Hno].
        split; [|exact Hno].
        exists (String a (String b (String c EmptyString)) ++ l)%string.
        split.
        - constructor; [now apply is_whitespace_In | assumption].
        - simpl. now rewrite <- El. }
      split.
      * exists EmptyString. split; [constructor | reflexivity].
      * intros w rest. apply no_whitespace_prefix; [assumption|].
        split; assumption.
Qed.

Lemma rstrip_cons (a : ascii) (s : string) :
  rstrip (String a s)
  = if is_whitespace (String a (rstrip s)) then EmptyString
    else String a (rstrip s).
Proof. reflexivity. Qed.

Lemma rstrip_spec (s : string) :
  (exists t, blank t /\ s = (rstrip s ++ t)%string)
  /\ (forall w rest, In w WHITESPACE -> rstrip s <> (rest ++ w)%string).
Proof.
  induction s as [|a s [(t & Ht & Et) Hno]].
  - split.
    + exists EmptyString. split; [constructor | reflexivity].
    + intros w rest Hw E. apply (whitespace_nonempty w Hw).
      destruct rest; [simpl in E; now subst | discriminate].
  - rewrite rstrip_cons.
    destruct (is_whitespace (String a (rstrip s))) eqn:Hws.
    + split.
      * exists (String a (rstrip s) ++ t)%string. split.
        -- constructor; [now apply is_whitespace_In | assumption].
        -- simpl. now rewrite <- Et.
      * intros w rest Hw E. apply (whitespace_nonempty w Hw).
        destruct rest; [simpl in E; now subst | discriminate].
    + split.
      * exists t. split; [assumption|]. simpl. now rewrite <- Et.
      * intros w rest Hw E. destruct rest as [|b rest].
        -- simpl in E. subst w. apply is_whitespace_In in Hw. congruence.
        -- simpl in E. injection E as _ E. now apply (Hno w rest).
Qed.

Lemma strip_spec (s : string) : stripped_of s (strip s).
Proof.
  unfold stripped_of, strip.
  destruct (lstrip_spec (String.length s) s (le_n _))
    as [(l & Hl & El) Hpre].
  destruct (rstrip_spec (lstrip s)) as [(t & Ht & Et) Hsuf].
  split; [|split].
  - exists l, t. split; [assumption|]. split; [assumption|].
    now rewrite <- Et.
  - intros w rest Hw E. apply (Hpre w (rest ++ t)%string Hw).
    rewrite Et at 1. rewrite E. apply append_assoc.
  - exact Hsuf.
Qed.

Lemma strip_blank (s : string) : strip s = EmptyString <-> blank s.
Proof.
  split.
  - intros E. destruct (strip_spec s) as [(l & t & Hl & Ht & Es) _].
    rewrite E in Es. rewrite Es. now apply blank_app.
  - intros H. unfold strip. now rewrite lstrip_blank.
Qed.

Lemma truthy_strip (s : string) : truthy (strip s) = true <-> ~ blank s.
Proof.
  rewrite <- strip_blank. destruct (strip s); simpl.
  - split; [discriminate | intros H; now contradiction H].
  - split; [discriminate | reflexivity].
Qed.

Lemma falsy_strip (s : string) : truthy (strip s) = false <-> blank s.
Proof.
  rewrite <- strip_blank. destruct (strip s); simpl.
  - tauto.
  - split; discriminate.
Qed.

Lemma items_of_lines_strip (lines : list string) :
  items_of_lines lines
    (map strip (filter (fun line => truthy (strip line)) lines)).
Proof.
  induction lines as [|line lines IH]; [constructor|].
  cbn [filter]. destruct (truthy (strip line)) eqn:E.
  - cbn [map]. constructor; [now apply truthy_strip | apply strip_spec |].
    exact IH.
  - constructor; [now apply falsy_strip | exact IH].
Qed.

Lemma split_lines_nonempty (s : string) : split_lines s <> [].
Proof.
  destruct s as [|a s]; simpl; [discriminate|].
  destruct (Ascii.eqb a NEWLINE); [discriminate|].
  destruct (split_lines s); discriminate.
Qed.

Lemma join_cons (sep x : string) (l : list string) :
  l <> [] -> join sep (x :: l) = (x ++ sep ++ join sep l)%string.
Proof. destruct l; [contradiction | reflexivity]. Qed.

Lemma join_split_lines (s : string) :
  join (String NEWLINE EmptyString) (split_lines s) = s.
Proof.
  induction s as [|a s IH]; [reflexivity|].
  cbn [split_lines]. destruct (Ascii.eqb_spec a NEWLINE) as [->|Hne].
  - rewrite join_cons by apply split_lines_nonempty. simpl.
    now rewrite IH.
  - pose proof (split_lines_nonempty s) as Hs.
    destruct (split_lines s) as [|l ls]; [contradiction|].
    destruct ls as [|l' ls].
    + simpl in IH. simpl. now rewrite IH.
    + rewrite join_cons in IH by discriminate.
      rewrite join_cons by discriminate.
      simpl. now rewrite <- IH.
Qed.

Lemma blank_join (lines : list string) :
  Forall blank lines -> blank (join (String NEWLINE EmptyString) lines).
Proof.
  induction 1 as [|l ls Hl Hls IH]; [constructor|].
  destruct ls as [|l' ls]; [exact Hl|].
  rewrite join_cons by discriminate.
  apply blank_app; [assumption|].
  apply blank_app; [|assumption].
  apply blank_whitespace. unfold WHITESPACE. simpl. tauto.
Qed.

(** An input that is not blank has an item. *)
Lemma items_of_input_nonempty (items_input : string) :
  ~ blank items_input -> items_of_input items_input <> [].
Proof.
  intros Hnb E. apply Hnb.
  rewrite <- (join_split_lines items_input). apply blank_join.
  unfold items_of_input in E. apply map_eq_nil in E.
  apply Forall_forall. intros line Hin.
  apply falsy_strip. apply not_true_is_false. intros Ht.
  assert (Hf : In line (filter (fun line => truthy (strip line))
                               (split_lines items_input))).
  { apply filter_In. split; assumption. }
  rewrite E in Hf. contradiction.
Qed.

(** ** The handlers *)

Lemma float_of_int_small (z : Z) :
  Z.abs z < 2 ^ 53 -> float_of_int z = Ok (inject_Z z).
Proof.
  intros H. unfold float_of_int.
  destruct (Z.ltb_spec (Z.abs z) (2 ^ 53)); [reflexivity | lia].
Qed.

Lemma app_one_inv {A : Type} (l : list A) (x : A) : l ++ [x] <> l.
Proof.
  intros H. apply (f_equal (@List.length A)) in H.
  rewrite length_app in H. simpl in H. lia.
Qed.

Section HandlerFacts.

Variable float_of_str : string -> option Q.
Variable json_dumps : json -> string.

Let new_row := new_row_dict float_of_str json_dumps.
Let log_meal := on_log_meal float_of_str json_dumps.

(** C8: a submission whose input is empty or white space only shows the
    error and does nothing else: no prompt is sent to the estimator, no row
    is built or written, and the sheets, the cache and the frames of the
    session are as before. *)
Theorem blank_submission_only_errors (meal_name items_input : string)
        (selected_date : Z) (now : string) (response : option json)
        (write_ok : bool) (a : app) :
  blank items_input ->
  let a' := on_log_meal float_of_str json_dumps meal_name items_input
                        selected_date now response write_ok a in
  a' = show (Error ("Please enter items for " ++ meal_name ++ ".")) a
  /\ messages a'
     = messages a ++ [Error ("Please enter items for " ++ meal_name ++ ".")]
  /\ estimator_calls a' = estimator_calls a
  /\ logs_ws a' = logs_ws a
  /\ settings_ws a' = settings_ws a
  /\ cache a' = cache a
  /\ logs_df a' = logs_df a
  /\ settings_df a' = settings_df a
  /\ calorie_goal a' = calorie_goal a.
Proof.
  intros Hblank. cbv zeta. unfold on_log_meal.
  apply falsy_strip in Hblank. rewrite Hblank.
  repeat split.
Qed.

Lemma new_row_dict_fields (user now : string) (selected_date : Z)
      (meal_name : string) (items_list : list string) (parsed_data : json)
      (d : NewRow) :
  new_row user now selected_date meal_name items_list parsed_data = Ok d ->
  exists totals,
    get_totals parsed_data = Ok totals
    /\ total_field float_of_str totals "calories_kcal"
       = Ok (d_calories_kcal d)
    /\ total_field float_of_str totals "protein_g" = Ok (d_protein_g d)
    /\ total_field float_of_str totals "carbs_g" = Ok (d_carbs_g d)
    /\ total_field float_of_str totals "fat_g" = Ok (d_fat_g d)
    /\ total_field float_of_str totals "fiber_g" = Ok (d_fiber_g d)
    /\ d_items_text d = join "; " items_list
    /\ d_User d = user /\ d_Meal d = meal_name /\ d_Date d = selected_date.
Proof.
  unfold new_row, new_row_dict.
  destruct (get_totals parsed_data) as [totals|e]; [|discriminate].
  cbn [bind].
  destruct (total_field float_of_str totals "calories_kcal") as [cal|e]
    eqn:Hcal; [|discriminate].
  destruct (total_field float_of_str totals "protein_g") as [pro|e]
    eqn:Hpro; [|discriminate].
  destruct (total_field float_of_str totals "carbs_g") as [car|e]
    eqn:Hcar; [|discriminate].
  destruct (total_field float_of_str totals "fat_g") as [fat|e]
    eqn:Hfat; [|discriminate].
  destruct (total_field float_of_str totals "fiber_g") as [fib|e]
    eqn:Hfib; [|discriminate].
  cbn [bind]. intros [= <-]. exists totals. cbn.
  repeat split; assumption.
Qed.

(** A key the answer's totals lack is read as 0. *)
Lemma total_field_lack (k : string) (parsed_data totals : json) :
  totals_lack parsed_data k ->
  get_totals parsed_data = Ok totals ->
  total_field float_of_str totals k = Ok 0%Q.
Proof.
  intros (fields & -> & H). cbn [get_totals].
  destruct H as [Hnone|(members & Hsome & Hk)].
  - rewrite Hnone. intros [= <-]. reflexivity.
  - rewrite Hsome. intros [= <-]. cbn [total_field]. now rewrite Hk.
Qed.

(** A value the answer's totals hold is read through [float]. *)
Lemma total_field_member (k : string) (parsed_data totals v : json) :
  totals_member parsed_data k = Some v ->
  get_totals parsed_data = Ok totals ->
  total_field float_of_str totals k = py_float float_of_str v.
Proof.
  destruct parsed_data as [| | | | | |fields]; try discriminate.
  cbn [totals_member get_totals].
  destruct (dict_get "totals" fields) as [[| | | | | |members]|];
    try discriminate.
  intros Hk [= <-]. cbn [total_field]. now rewrite Hk.
Qed.

Lemma get_totals_ok (k : string) (parsed_data : json) :
  missing_or_number parsed_data k ->
  exists totals, get_totals parsed_data = Ok totals.
Proof.
  assert (Hm : forall v, totals_member parsed_data k = Some v ->
                         exists totals, get_totals parsed_data = Ok totals).
  { intros v. destruct parsed_data as [| | | | | |fields]; try discriminate.
    cbn [totals_member get_totals].
    destruct (dict_get "totals" fields) as [t|]; [|discriminate].
    intros _. now exists t. }
  intros [[(fields & -> & H)|(q & H)]|(z & H & _)];
    [|now apply (Hm _ H)|now apply (Hm _ H)].
  cbn [get_totals].
  destruct H as [->|(members & -> & _)]; eexists; reflexivity.
Qed.

Lemma total_field_ok (k : string) (parsed_data totals : json) :
  missing_or_number parsed_data k ->
  get_totals parsed_data = Ok totals ->
  exists x, total_field float_of_str totals k = Ok x.
Proof.
  intros [[H|(q & H)]|(z & H & Hz)] Hget.
  - exists 0%Q. now apply (total_field_lack k parsed_data).
  - exists q. now rewrite (total_field_member k parsed_data totals _ H).
  - exists (inject_Z z).
    rewrite (total_field_member k parsed_data totals _ H) by assumption.
    cbn [py_float]. now apply float_of_int_small.
Qed.


(** What a submission does to the Logs sheet and to the session's frame:
    nothing, or one and the same new row at the end of each. *)
Lemma on_log_meal_rows (meal_name items_input : string) (selected_date : Z)
      (now : string) (response : option json) (write_ok : bool) (a : app) :
  let a' := log_meal meal_name items_input selected_date now response
                     write_ok a in
  (logs_ws a' = logs_ws a /\ logs_df a' = logs_df a)
  \/ exists parsed_data d df,
       response = Some parsed_data
       /\ ~ blank items_input
       /\ new_row (user a) now selected_date meal_name
                  (items_of_input items_input) parsed_data = Ok d
       /\ logs_df a = Some df
       /\ logs_df a' = Some (concat_row df (new_row_df d))
       /\ logs_ws a'
          = if write_ok then logs_ws a ++ [new_row_df d] else logs_ws a.
Proof.
  cbv zeta. unfold log_meal, on_log_meal.
  destruct (truthy (strip items_input)) eqn:Hsp;
    [|left; split; reflexivity].
  apply truthy_strip in Hsp.
  destruct response as [parsed_data|]; [|left; split; reflexivity].
  cbn [user call_estimator].
  destruct (new_row_dict _ _ _ _ _ _ _ _) as [d|e] eqn:Hd;
    [|left; split; reflexivity].
  cbn [logs_df call_estimator].
  destruct (logs_df a) as [df|] eqn:Hdf.
  - right. exists parsed_data, d, df.
    repeat split; try assumption; destruct write_ok; reflexivity.
  - left. split; [reflexivity|]. cbn. now rewrite Hdf.
Qed.

(** A submission that is not blank and is answered: an exception and
    nothing logged when the row cannot be built, else the row built. *)
Lemma on_log_meal_answered (meal_name items_input : string)
      (selected_date : Z) (now : string) (parsed_data : json)
      (write_ok : bool) (a : app) (df : DataFrame (Row cell)) :
  ~ blank items_input ->
  logs_df a = Some df ->
  let a' := log_meal meal_name items_input selected_date now
                     (Some parsed_data) write_ok a in
  match new_row (user a) now selected_date meal_name
                (items_of_input items_input) parsed_data with
  | Raise e =>
      logs_df a' = Some df /\ logs_ws a' = logs_ws a
      /\ messages a' = messages a ++ [Exception e]
  | Ok d =>
      logs_df a' = Some (concat_row df (new_row_df d))
      /\ logs_ws a'
         = (if write_ok then logs_ws a ++ [new_row_df d] else logs_ws a)
  end.
Proof.
  intros Hnb Hdf. cbv zeta. unfold log_meal, on_log_meal, new_row.
  apply truthy_strip in Hnb. rewrite Hnb.
  cbn [user call_estimator].
  destruct (new_row_dict _ _ _ _ _ _ _ _) as [d|e] eqn:Hd.
  - cbn [logs_df call_estimator]. rewrite Hdf.
    destruct write_ok; split; reflexivity.
  - cbn. rewrite Hdf. repeat split.
Qed.

Lemma new_row_dict_ok (user now : string) (selected_date : Z)
      (meal_name : string) (items_list : list string)
      (parsed_data : json) :
  (forall k, In k NUMERIC_COLUMNS -> missing_or_number parsed_data k) ->
  exists d,
    new_row user now selected_date meal_name items_list parsed_data = Ok d.
Proof.
  intros Hall. unfold new_row, new_row_dict.
  destruct (get_totals_ok "calories_kcal" parsed_data) as [totals Hget];
    [apply Hall; simpl; tauto|].
  rewrite Hget. cbn [bind].
  destruct (total_field_ok "calories_kcal" parsed_data totals) as [cal ->];
    [apply Hall; simpl; tauto | assumption |].
  destruct (total_field_ok "protein_g" parsed_data totals) as [pro ->];
    [apply Hall; simpl; tauto | assumption |].
  destruct (total_field_ok "carbs_g" parsed_data totals) as [car ->];
    [apply Hall; simpl; tauto | assumption |].
  destruct (total_field_ok "fat_g" parsed_data totals) as [fat ->];
    [apply Hall; simpl; tauto | assumption |].
  destruct (total_field_ok "fiber_g" parsed_data totals) as [fib ->];
    [apply Hall; simpl; tauto | assumption |].
  cbn [bind]. eexists. reflexivity.
Qed.


(** C9: whatever the estimator answered, a row that the submission writes
    to the Logs sheet holds a number in each of its five nutrition cells,
    and that number is 0 for every key that the answer's totals lack, be
    it that the totals object has no such key or that the answer has no
    totals at all.  The row is written whenever the submission is not
    blank, the sheet takes it and each of the five keys is missing or
    holds a float; without any totals the five cells of the row are 0. *)
Theorem absent_totals_default_to_zero (meal_name items_input : string)
        (selected_date : Z) (now : string) (write_ok : bool) (a : app) :
  (forall response r,
      logs_ws (on_log_meal float_of_str json_dumps meal_name items_input
                           selected_date now response write_ok a)
      = logs_ws a ++ [r] ->
      all_numeric r = true
      /\ exists parsed_data,
           response = Some parsed_data
           /\ (totals_lack parsed_data "calories_kcal" ->
               calories_kcal r = CNum 0)
           /\ (totals_lack parsed_data "protein_g" -> protein_g r = CNum 0)
           /\ (totals_lack parsed_data "carbs_g" -> carbs_g r = CNum 0)
           /\ (totals_lack parsed_data "fat_g" -> fat_g r = CNum 0)
           /\ (totals_lack parsed_data "fiber_g" -> fiber_g r = CNum 0))
  /\ (forall parsed_data df,
         ~ blank items_input ->
         logs_df a = Some df ->
         (forall k, In k NUMERIC_COLUMNS ->
                    missing_or_float parsed_data k) ->
         exists r,
           logs_ws (on_log_meal float_of_str json_dumps meal_name
                                items_input selected_date now
                                (Some parsed_data) true a)
           = logs_ws a ++ [r])
  /\ (forall fields df,
         ~ blank items_input ->
         logs_df a = Some df ->
         dict_get "totals" fields = None ->
         exists r,
           logs_ws (on_log_meal float_of_str json_dumps meal_name
                                items_input selected_date now
                                (Some (JObj fields)) true a)
           = logs_ws a ++ [r]
           /\ calories_kcal r = CNum 0 /\ protein_g r = CNum 0
           /\ carbs_g r = CNum 0 /\ fat_g r = CNum 0
           /\ fiber_g r = CNum 0).
Proof.
  split; [|split].
  - intros response r Hr.
    destruct (on_log_meal_rows meal_name items_input selected_date now
                               response write_ok a)
      as [[Hsame _]|(parsed_data & d & df & -> & Hblank & Hd & Hdf & _
                     & Hws)].
    + unfold log_meal in Hsame. rewrite Hsame in Hr.
      symmetry in Hr. now apply app_one_inv in Hr.
    + unfold log_meal in Hws. rewrite Hws in Hr. destruct write_ok.
      * apply app_inv_head in Hr. injection Hr as <-.
        split; [reflexivity|].
        destruct (new_row_dict_fields _ _ _ _ _ _ _ Hd)
          as (totals & Hget & Hcal & Hpro & Hcar & Hfat & Hfib & _).
        exists parsed_data. split; [reflexivity|].
        repeat split; intros Habs; cbn; f_equal;
          apply (fun H => total_field_lack _ _ _ H Hget) in Habs;
          congruence.
      * symmetry in Hr. now apply app_one_inv in Hr.
  - intros parsed_data df Hnb Hdf Hall.
    pose proof (on_log_meal_answered meal_name items_input selected_date
                  now parsed_data true a df Hnb Hdf) as H.
    cbv zeta in H. unfold log_meal in H.
    destruct (new_row_dict_ok (user a) now selected_date meal_name
                (items_of_input items_input) parsed_data) as [d Hd].
    { intros k Hk. left. now apply Hall. }
    rewrite Hd in H. exists (new_row_df d). apply H.
  - intros fields df Hnb Hdf Hnone.
    pose proof (on_log_meal_answered meal_name items_input selected_date
                  now (JObj fields) true a df Hnb Hdf) as H.
    cbv zeta in H. unfold log_meal, new_row, new_row_dict in H.
    cbn [get_totals] in H. rewrite Hnone in H. cbn in H.
    eexists. split; [apply H|]. repeat split.
Qed.

(** C2 on the code: a meal submission never touches the cache of
    [fetch_all_data], whereas a goal that was saved clears it.  After a
    meal was written to the sheet, the next fetch is served from the cache
    and does not hold the new row until the cached value expires. *)
Theorem meal_log_keeps_cache :
  (forall meal_name items_input selected_date now response write_ok a,
      cache (on_log_meal float_of_str json_dumps meal_name items_input
                         selected_date now response write_ok a)
      = cache a)
  /\ (forall new_goal a, cache (on_save_goal true new_goal a) = None)
  /\ (let a0 := load_session true (cold_start "Suyash" [] [TITLE_ROW]) in
      let a1 := on_log_meal float_of_str json_dumps "Breakfast" "2 idli" 10
                  "now"
                  (Some (JObj [("totals"%string,
                                JObj [("calories_kcal"%string, JNum 120)])]))
                  true a0 in
      List.length (logs_ws a1) = 1%nat
      /\ messages a1 = [Success "Breakfast logged!"]
      /\ cache a1 = cache a0
      /\ cache a1 <> None
      /\ rows (fst (fst (fetch_all_data true a1))) = []
      /\ rows (fst (fst (fetch_all_data true (ttl_expired a1))))
         = logs_ws a1).
Proof.
  split; [|split].
  - intros. unfold on_log_meal.
    destruct (truthy (strip items_input)); [|reflexivity].
    destruct response as [parsed_data|]; [|reflexivity].
    destruct (new_row_dict _ _ _ _ _ _ _ _); [|reflexivity].
    cbn [logs_df call_estimator].
    destruct (logs_df a); [|reflexivity].
    destruct write_ok; reflexivity.
  - intros new_goal a. unfold on_save_goal, set_calorie_goal.
    cbn [settings_ws set_goal user].
    destruct (find_in_column1 (user a) (settings_ws a)); reflexivity.
  - cbv zeta. repeat split. discriminate.
Qed.

End HandlerFacts.

Lemma blank_submission_only_errors_witness :
  blank (bytes [32; 194; 160; 10; 226; 128; 131]%nat)
  /\ (let a := load_session true (cold_start "Suyash" [] [TITLE_ROW]) in
      let a' := on_log_meal (fun _ => None) (fun _ => EmptyString) "Lunch"
                            (bytes [32; 194; 160; 10; 226; 128; 131]%nat)
                            10 "now" None true a in
      estimator_calls a' = estimator_calls a /\ logs_ws a' = logs_ws a).
Proof.
  assert (Hb : blank (bytes [32; 194; 160; 10; 226; 128; 131]%nat)).
  { apply falsy_strip. reflexivity. }
  split; [exact Hb|]. cbv zeta.
  destruct (blank_submission_only_errors
              (fun _ => None) (fun _ => EmptyString) "Lunch"
              (bytes [32; 194; 160; 10; 226; 128; 131]%nat) 10 "now"
              None true (load_session true (cold_start "Suyash" []
                                                       [TITLE_ROW]))
              Hb)
    as (_ & _ & Hcalls & Hws & _).
  split; [exact Hcalls | exact Hws].
Defined.



Lemma absent_totals_default_to_zero_witness :
  let a := load_session true (cold_start "Suyash" [] [TITLE_ROW]) in
  let answer :=
    JObj [("totals"%string, JObj [("protein_g"%string, JNum 4.5)])] in
  ~ blank "2 idli"
  /\ logs_df a = Some empty_frame
  /\ (exists r,
         logs_ws (on_log_meal (fun _ => None) (fun _ => EmptyString)
                              "Breakfast" "2 idli" 10 "now"
                              (Some answer) true a)
         = logs_ws a ++ [r]
         /\ all_numeric r = true
         /\ calories_kcal r = CNum 0
         /\ fiber_g r = CNum 0)
  /\ (exists r,
         logs_ws (on_log_meal (fun _ => None) (fun _ => EmptyString)
                              "Breakfast" "2 idli" 10 "now"
                              (Some (JObj [])) true a)
         = logs_ws a ++ [r]
         /\ calories_kcal r = CNum 0).
Proof.
  cbv zeta.
  assert (Hnb : ~ blank "2 idli") by (apply truthy_strip; reflexivity).
  split; [exact Hnb|]. split; [reflexivity|].
  destruct (absent_totals_default_to_zero
              (fun _ => None) (fun _ => EmptyString) "Breakfast" "2 idli" 10
              "now" true
              (load_session true (cold_start "Suyash" [] [TITLE_ROW])))
    as (H1 & H2 & H3).
  split.
  - destruct (H2 (JObj [("totals"%string,
                         JObj [("protein_g"%string, JNum 4.5)])])
                 empty_frame Hnb eq_refl) as [r Hr].
    { intros k Hk. simpl in Hk.
      destruct Hk as [<-|[<-|[<-|[<-|[<-|[]]]]]];
        try (right; eexists; reflexivity);
        left; eexists; (split; [reflexivity|]);
        right; eexists; (split; reflexivity). }
    exists r. split; [exact Hr|].
    destruct (H1 _ _ Hr) as (Hnum & parsed & [= <-] & Hcal & _ & _ & _
                             & Hfib).
    split; [exact Hnum|]. split.
    + apply Hcal. eexists. split; [reflexivity|].
      right. eexists. split; reflexivity.
    + apply Hfib. eexists. split; [reflexivity|].
      right. eexists. split; reflexivity.
  - destruct (H3 [] empty_frame Hnb eq_refl eq_refl)
      as (r & Hr & Hcal & _).
    exists r. split; assumption.
Defined.

(** ** The calorie goal read back *)

Section GoalFacts.

Variable user : string.

(** The mask of [get_calorie_goal] on a sheet with the expected titles. *)
Let is_goal_row (r : SettingRow) : bool :=
  eq_str (col_A r) user && eq_str (col_B r) "Calorie Goal".

Lemma get_calorie_goal_titled (data : list SettingRow) :
  get_calorie_goal (settings_frame (TITLE_ROW :: data)) user
  = match filter is_goal_row data with
    | r :: _ => py_int (col_C r)
    | [] => Ok 2000
    end.
Proof.
  destruct data as [|r0 data]; [reflexivity|]. reflexivity.
Qed.

Lemma filter_goal_none (data : list SettingRow) :
  Forall (fun r => eq_str (col_A r) user = false) data ->
  filter is_goal_row data = [].
Proof.
  induction 1 as [|r data Hr _ IH]; [reflexivity|].
  simpl. unfold is_goal_row at 1. now rewrite Hr.
Qed.

(** Without a row for the user the goal is the default. *)
Lemma get_calorie_goal_default (data : list SettingRow) :
  Forall (fun r => eq_str (col_A r) user = false) data ->
  get_calorie_goal (settings_frame (TITLE_ROW :: data)) user = Ok 2000.
Proof.
  intros H. rewrite get_calorie_goal_titled.
  now rewrite filter_goal_none.
Qed.

Lemma py_int_goal (g : Z) : py_int (CNum (inject_Z g)) = Ok g.
Proof. simpl. now rewrite Z.quot_1_r. Qed.

Lemma filter_goal_updated (g : Z) (data : list SettingRow) :
  Forall (fun r => eq_str (col_A r) user = true ->
                   col_B r = CStr "Calorie Goal") data ->
  forall i, find_in_column1 user data = Some i ->
    exists r rest,
      filter is_goal_row (update_cell3 i (CNum (inject_Z g)) data)
      = r :: rest
      /\ col_C r = CNum (inject_Z g).
Proof.
  induction 1 as [|r data Hr _ IH]; intros i; simpl; [discriminate|].
  destruct (eq_str (col_A r) user) eqn:E.
  - intros [= <-]. simpl. unfold is_goal_row at 1. simpl.
    rewrite E, (Hr eq_refl). simpl. eexists. eexists.
    split; reflexivity.
  - destruct (find_in_column1 user data) as [j|]; [|discriminate].
    intros [= <-]. simpl. unfold is_goal_row at 1. rewrite E. simpl.
    apply IH. reflexivity.
Qed.

Lemma find_none_all (data : list SettingRow) :
  find_in_column1 user data = None ->
  Forall (fun r => eq_str (col_A r) user = false) data.
Proof.
  induction data as [|r data IH]; simpl; [constructor|].
  destruct (eq_str (col_A r) user) eqn:E; [discriminate|].
  destruct (find_in_column1 user data); [discriminate|].
  intros _. constructor; [assumption | now apply IH].
Qed.

(** On a sheet where every row of the user is a "Calorie Goal" row, the
    goal that was saved is the goal a fresh read gives. *)
Lemma saved_goal_read_back (g : Z) (data : list SettingRow) :
  user <> "User"%string ->
  Forall (fun r => eq_str (col_A r) user = true ->
                   col_B r = CStr "Calorie Goal") data ->
  get_calorie_goal
    (settings_frame (snd (set_calorie_goal true (TITLE_ROW :: data) user g)))
    user = Ok g.
Proof.
  intros Hu Hrows. unfold set_calorie_goal. cbn [find_in_column1].
  assert (eq_str (col_A TITLE_ROW) user = false) as ->.
  { change (String.eqb "User" user = false).
    apply String.eqb_neq. congruence. }
  destruct (find_in_column1 user data) as [i|] eqn:Hf; cbn [option_map snd].
  - cbn [update_cell3]. rewrite get_calorie_goal_titled.
    destruct (filter_goal_updated g data Hrows i Hf) as (r & rest & -> & ->).
    apply py_int_goal.
  - unfold append_row. cbn [List.app]. rewrite get_calorie_goal_titled.
    rewrite filter_app.
    rewrite (filter_goal_none data (find_none_all data Hf)).
    simpl. unfold is_goal_row. simpl. rewrite String.eqb_refl. simpl.
    apply py_int_goal.
Qed.

End GoalFacts.

(** ** Where the code departs from the specification *)

(** C5 on the code: with a Settings sheet whose first row for the user
    carries another setting, saving the goal 1800 overwrites the value of
    that row, and reading the goal back from a fresh fetch gives the default
    2000, not 1800. *)
Theorem saved_goal_not_read_back :
  let ws0 := [TITLE_ROW;
              mkSetting (CStr "Suyash") (CStr "Weight") (CNum 70)] in
  let a0 := load_session true (cold_start "Suyash" [] ws0) in
  let a1 := on_save_goal true 1800 a0 in
  get_calorie_goal (settings_frame ws0) "Suyash" = Ok 2000
  /\ messages a1 = [Success "Goal saved as 1800 kcal!"]
  /\ settings_ws a1
     = [TITLE_ROW;
        mkSetting (CStr "Suyash") (CStr "Weight") (CNum (inject_Z 1800))]
  /\ cache a1 = None
  /\ get_calorie_goal (snd (fst (fetch_all_data true a1))) "Suyash"
     = Ok 2000
  /\ get_calorie_goal
       (settings_frame
          [TITLE_ROW;
           mkSetting (CStr "Suyash") (CStr "Calorie Goal") (CNum 2200)])
       "Suyash" = Ok 2200.
Proof.
  cbv zeta. repeat split; vm_compute; reflexivity.
Qed.

(** C7 on the code: a text in the calories cell of a row of the window
    makes the weekly trend raise, next to a number of the same day or alone,
    while the daily summary counts that cell as 0 and keeps the row's other
    fields. *)
Theorem weekly_trend_raises_on_malformed :
  let good := log_at "Suyash" (midnight 10) 300 in
  let bad := malformed_log_at "Suyash" (midnight 10 + 1) "abc" in
  weekly_trend [good; bad] "Suyash" 10 = Raise "TypeError"
  /\ weekly_trend [bad] "Suyash" 10 = Raise "TypeError"
  /\ total_calories (daily_summary [good; bad] "Suyash" 10) = (0 + 300 + 0)%Q
  /\ total_protein (daily_summary [good; bad] "Suyash" 10) = (0 + 0 + 7)%Q.
Proof.
  cbv zeta. repeat split.
Qed.

(** * Further properties of the code *)

(** ** Session start and the cache *)

(** X1: the user a session starts with is always one of the known users:
    the cookie's user when it names one of them, the first of the list
    otherwise (no cookie, or an unknown name). *)
Theorem initial_user_is_known (last_user : option string) :
  In (initial_user last_user) USER_LIST
  /\ (forall u, last_user = Some u -> In u USER_LIST ->
                initial_user last_user = u)
  /\ (forall u, last_user = Some u -> ~ In u USER_LIST ->
                initial_user last_user = "Suyash"%string)
  /\ (last_user = None -> initial_user last_user = "Suyash"%string).
Proof.
  assert (Hspec : forall u, in_user_list u = true <-> In u USER_LIST).
  { intros u. unfold in_user_list. rewrite existsb_exists. split.
    - intros (x & Hin & Hx). apply String.eqb_eq in Hx. now subst.
    - intros Hin. exists u. split; [assumption | apply String.eqb_refl]. }
  split; [|split; [|split]].
  - destruct last_user as [u|]; simpl; [|now left].
    destruct (in_user_list u) eqn:E; [now apply Hspec | now left].
  - intros u -> Hin. simpl. apply Hspec in Hin. now rewrite Hin.
  - intros u -> Hin. simpl. destruct (in_user_list u) eqn:E; [|reflexivity].
    apply Hspec in E. contradiction.
  - now intros ->.
Qed.

Lemma initial_user_is_known_witness :
  initial_user (Some "Divyanshi"%string) = "Divyanshi"%string
  /\ initial_user (Some "Mallory"%string) = "Suyash"%string
  /\ initial_user None = "Suyash"%string.
Proof.
  destruct (initial_user_is_known (Some "Divyanshi"%string))
    as (_ & H1 & _ & _).
  destruct (initial_user_is_known (Some "Mallory"%string))
    as (_ & _ & H2 & _).
  destruct (initial_user_is_known None) as (_ & _ & _ & H3).
  split; [|split].
  - apply (H1 "Divyanshi"%string); [reflexivity | simpl; tauto].
  - apply (H2 "Mallory"%string); [reflexivity|]. simpl.
    intros [H|[H|[]]]; discriminate.
  - now apply H3.
Defined.

(** X2: as long as the cache of [fetch_all_data] holds what a call left
    there (the value has neither expired after its 60 seconds nor been
    cleared), a further call returns the same two frames and reads nothing,
    whatever has happened to the two sheets in between and whether or not
    they can be read; the sheets and the cache stay as they are. *)
Theorem fetch_is_served_from_cache (ok1 ok2 : bool) (a later : app) :
  let first := fetch_all_data ok1 a in
  cache later = cache (snd first) ->
  fst (fetch_all_data ok2 later) = fst first
  /\ logs_ws (snd (fetch_all_data ok2 later)) = logs_ws later
  /\ settings_ws (snd (fetch_all_data ok2 later)) = settings_ws later
  /\ cache (snd (fetch_all_data ok2 later)) = cache later.
Proof.
  cbv zeta. unfold fetch_all_data.
  destruct (cache a) as [snap|] eqn:Hc; cbn [fst snd].
  - rewrite Hc. intros H. rewrite H. cbn [fst snd].
    repeat split. exact H.
  - destruct ok1; cbn [snd set_cache cache]; intros H; rewrite H;
      cbn [fst snd]; repeat split; exact H.
Qed.

Lemma fetch_is_served_from_cache_witness :
  let a := cold_start "Suyash" [] [TITLE_ROW] in
  let later :=
    set_logs_ws [log_at "Suyash" (midnight 10) 300]
                (snd (fetch_all_data true a)) in
  cache later = cache (snd (fetch_all_data true a))
  /\ rows (fst (fst (fetch_all_data true later))) = []
  /\ logs_ws (snd (fetch_all_data true later))
     = [log_at "Suyash" (midnight 10) 300].
Proof.
  cbv zeta. split; [reflexivity|].
  destruct (fetch_is_served_from_cache
              true true (cold_start "Suyash" [] [TITLE_ROW])
              (set_logs_ws [log_at "Suyash" (midnight 10) 300]
                 (snd (fetch_all_data true
                         (cold_start "Suyash" [] [TITLE_ROW]))))
              eq_refl) as (Hf & Hl & _).
  split; [now rewrite Hf | exact Hl].
Defined.

(** X3: when the sheets cannot be read and nothing is cached, the fetch
    shows an error, returns two empty frames and caches them: the next
    fetch returns the empty frames too, although the sheets can be read
    again, until the cached value is dropped. *)
Theorem failed_fetch_is_cached (a : app) :
  cache a = None ->
  let failed := fetch_all_data false a in
  fst failed = (empty_frame, empty_frame)
  /\ messages (snd failed) = messages a ++ [Error "Error fetching data"]
  /\ fst (fetch_all_data true (snd failed)) = (empty_frame, empty_frame)
  /\ fst (fetch_all_data true (ttl_expired (snd failed)))
     = (frame_of_records LOGS_COLUMNS (logs_ws a),
        settings_frame (settings_ws a)).
Proof.
  intros Hc. cbv zeta. unfold fetch_all_data. rewrite Hc.
  repeat split.
Qed.

Lemma failed_fetch_is_cached_witness :
  let a := cold_start "Suyash" [log_at "Suyash" 0 300] [TITLE_ROW] in
  fst (fetch_all_data true (snd (fetch_all_data false a)))
  = (empty_frame, empty_frame).
Proof.
  cbv zeta.
  apply (failed_fetch_is_cached
           (cold_start "Suyash" [log_at "Suyash" 0 300] [TITLE_ROW])).
  reflexivity.
Defined.

(** X4: after the top of the script both frames are in the session, and
    running it again neither fetches nor changes anything. *)
Theorem load_session_once (ok1 ok2 : bool) (a : app) :
  (exists l s, logs_df (load_session ok1 a) = Some l
               /\ settings_df (load_session ok1 a) = Some s)
  /\ load_session ok2 (load_session ok1 a) = load_session ok1 a.
Proof.
  assert (H : exists l s, logs_df (load_session ok1 a) = Some l
                          /\ settings_df (load_session ok1 a) = Some s).
  { unfold load_session.
    destruct (logs_df a) as [l|] eqn:Hl;
      [destruct (settings_df a) as [s|] eqn:Hs|].
    - exists l, s. split; assumption.
    - destruct (fetch_all_data ok1 a) as [snap a']. eexists. eexists.
      split; reflexivity.
    - destruct (fetch_all_data ok1 a) as [snap a']. eexists. eexists.
      split; reflexivity. }
  split; [exact H|].
  destruct H as (l & s & Hl & Hs).
  unfold load_session at 1. now rewrite Hl, Hs.
Qed.

(** X5: the refresh button followed by the next run of the script puts in
    the session exactly what the two sheets hold (when they can be read),
    whatever was cached or held before, and writes nothing. *)
Theorem refresh_reloads_the_sheets (a : app) :
  let a' := load_session true (on_refresh a) in
  logs_df a' = Some (frame_of_records LOGS_COLUMNS (logs_ws a))
  /\ settings_df a' = Some (settings_frame (settings_ws a))
  /\ cache a'
     = Some (frame_of_records LOGS_COLUMNS (logs_ws a),
             settings_frame (settings_ws a))
  /\ logs_ws a' = logs_ws a
  /\ settings_ws a' = settings_ws a
  /\ messages a' = messages a.
Proof.
  cbv zeta. repeat split.
Qed.

(** ** Saving and reading the goal *)

(** X6: "Save Goal" puts the new goal in the session whether or not the
    sheet takes it, and never touches the frames of the session, the user
    or the Logs sheet.  When the sheet call fails the Settings sheet and
    the cache stay as they were and only the error is shown. *)
Theorem save_goal_sets_session_goal (ok : bool) (new_goal : Z) (a : app) :
  calorie_goal (on_save_goal ok new_goal a) = new_goal
  /\ logs_df (on_save_goal ok new_goal a) = logs_df a
  /\ settings_df (on_save_goal ok new_goal a) = settings_df a
  /\ logs_ws (on_save_goal ok new_goal a) = logs_ws a
  /\ user (on_save_goal ok new_goal a) = user a
  /\ estimator_calls (on_save_goal ok new_goal a) = estimator_calls a
  /\ settings_ws (on_save_goal false new_goal a) = settings_ws a
  /\ cache (on_save_goal false new_goal a) = cache a
  /\ messages (on_save_goal false new_goal a)
     = messages a ++ [Error "Could not save calorie goal"].
Proof.
  unfold on_save_goal, set_calorie_goal. cbn [settings_ws set_goal user].
  destruct ok; [|repeat split].
  destruct (find_in_column1 (user a) (settings_ws a)); repeat split.
Qed.

Lemma on_save_goal_session (ok : bool) (new_goal : Z) (a : app) :
  calorie_goal (on_save_goal ok new_goal a) = new_goal
  /\ settings_df (on_save_goal ok new_goal a) = settings_df a.
Proof.
  unfold on_save_goal, set_calorie_goal. cbn [settings_ws set_goal user].
  destruct ok; [|split; reflexivity].
  destruct (find_in_column1 (user a) (settings_ws a)); split; reflexivity.
Qed.

(** X7: switching the user reads the goal from the frame the session
    holds and reaches neither the sheets nor the cache; so after a goal was
    saved, selecting a user shows the goal of the last fetch (or leaves the
    goal as it is when that read raises), not the goal just saved. *)
Theorem user_change_reads_held_frame (ok : bool) (new_goal : Z)
        (u : string) (a : app) :
  let a' := snd (on_user_change u (on_save_goal ok new_goal a)) in
  fst (on_user_change u a) = u
  /\ user a' = u
  /\ calorie_goal a'
     = match settings_df a with
       | Some df =>
           match get_calorie_goal df u with
           | Ok g => g
           | Raise _ => new_goal
           end
       | None => new_goal
       end
  /\ settings_ws (snd (on_user_change u a)) = settings_ws a
  /\ logs_ws (snd (on_user_change u a)) = logs_ws a
  /\ cache (snd (on_user_change u a)) = cache a
  /\ settings_df (snd (on_user_change u a)) = settings_df a.
Proof.
  cbv zeta.
  destruct (on_save_goal_session ok new_goal a) as (Hg & Hs).
  unfold on_user_change. cbn [fst snd set_user settings_df].
  rewrite Hs.
  destruct (settings_df a) as [df|] eqn:Hdf;
    [destruct (get_calorie_goal df u)|]; cbn; rewrite ?Hg;
    repeat split; now rewrite ?Hdf.
Qed.

(** X8: the goal is the default 2000 for a session without Settings
    records (an empty sheet, or only the title row) and for a user with no
    row in the sheet. *)
Theorem goal_defaults_to_2000 (u : string) :
  get_calorie_goal empty_frame u = Ok 2000
  /\ get_calorie_goal (settings_frame []) u = Ok 2000
  /\ get_calorie_goal (settings_frame [TITLE_ROW]) u = Ok 2000
  /\ (forall data,
         Forall (fun r => eq_str (col_A r) u = false) data ->
         get_calorie_goal (settings_frame (TITLE_ROW :: data)) u = Ok 2000).
Proof.
  repeat split. apply get_calorie_goal_default.
Qed.

Lemma goal_defaults_to_2000_witness :
  get_calorie_goal
    (settings_frame
       [TITLE_ROW;
        mkSetting (CStr "Divyanshi") (CStr "Calorie Goal") (CNum 1600)])
    "Suyash" = Ok 2000.
Proof.
  apply (goal_defaults_to_2000 "Suyash").
  repeat constructor.
Defined.

(** X9: on a sheet under the title row where every row of the user is a
    "Calorie Goal" row, the goal a successful save wrote is the goal read
    from the sheet afterwards, whether the row was there or was appended. *)
Theorem goal_round_trip (u : string) (g : Z) (data : list SettingRow) :
  u <> "User"%string ->
  Forall (fun r => eq_str (col_A r) u = true ->
                   col_B r = CStr "Calorie Goal") data ->
  get_calorie_goal
    (settings_frame (snd (set_calorie_goal true (TITLE_ROW :: data) u g)))
    u = Ok g
  /\ get_calorie_goal
       (snd (fst (fetch_all_data true
          (on_save_goal true g
             (cold_start u [] (TITLE_ROW :: data))))))
       u = Ok g.
Proof.
  intros Hu Hrows.
  pose proof (saved_goal_read_back u g data Hu Hrows) as H.
  split; [exact H|].
  unfold on_save_goal, cold_start. cbn [settings_ws set_goal user].
  destruct (set_calorie_goal true (TITLE_ROW :: data) u g) as [saved ws]
    eqn:E.
  assert (saved = true) as ->.
  { unfold set_calorie_goal in E.
    destruct (find_in_column1 u (TITLE_ROW :: data)); now inversion E. }
  cbn in H |- *. exact H.
Qed.

Lemma goal_round_trip_witness :
  get_calorie_goal
    (settings_frame
       (snd (set_calorie_goal true
               [TITLE_ROW;
                mkSetting (CStr "Divyanshi") (CStr "Calorie Goal")
                          (CNum 1600);
                mkSetting (CStr "Suyash") (CStr "Calorie Goal") (CNum 2000)]
               "Suyash" 1850)))
    "Suyash" = Ok 1850.
Proof.
  apply (goal_round_trip "Suyash" 1850
           [mkSetting (CStr "Divyanshi") (CStr "Calorie Goal") (CNum 1600);
            mkSetting (CStr "Suyash") (CStr "Calorie Goal") (CNum 2000)]).
  - discriminate.
  - repeat constructor.
Defined.

Lemma eq_str_other (c : cell) (u other : string) :
  eq_str c u = true -> other <> u -> eq_str c other = false.
Proof.
  destruct c as [q|s]; simpl; [discriminate|].
  intros H Hne. apply String.eqb_eq in H. subst.
  apply String.eqb_neq. congruence.
Qed.

Lemma filter_update_other (u : string) (m : SettingRow -> bool) (v : cell)
      (data : list SettingRow) :
  (forall a b c, eq_str a u = true -> m (mkSetting a b c) = false) ->
  forall i, find_in_column1 u data = Some i ->
    filter m (update_cell3 i v data) = filter m data.
Proof.
  intros Hm. induction data as [|r data IH]; intros i; simpl;
    [discriminate|].
  destruct (eq_str (col_A r) u) eqn:E.
  - intros [= <-]. simpl. rewrite (Hm _ _ _ E).
    destruct r as [ra rb rc]. simpl in E. now rewrite (Hm _ _ _ E).
  - destruct (find_in_column1 u data) as [j|]; [|discriminate].
    intros [= <-]. simpl. now rewrite (IH j eq_refl).
Qed.

(** X10: under the title row, saving a goal for one user leaves the goal
    read for every other user as it was (the result or the exception),
    whether the save overwrote a row or appended one. *)
Theorem save_keeps_other_users_goal (u other : string) (g : Z)
        (data : list SettingRow) :
  u <> "User"%string -> other <> u ->
  get_calorie_goal
    (settings_frame (snd (set_calorie_goal true (TITLE_ROW :: data) u g)))
    other
  = get_calorie_goal (settings_frame (TITLE_ROW :: data)) other.
Proof.
  intros Hu Hother. unfold set_calorie_goal. cbn [find_in_column1].
  assert (eq_str (col_A TITLE_ROW) u = false) as ->.
  { change (String.eqb "User" u = false).
    apply String.eqb_neq. congruence. }
  destruct (find_in_column1 u data) as [i|] eqn:Hf; cbn [option_map snd].
  - cbn [update_cell3]. rewrite !get_calorie_goal_titled.
    rewrite (filter_update_other u); [reflexivity | | exact Hf].
    intros a b c Ha. cbn [col_A col_B].
    now rewrite (eq_str_other a u other Ha Hother).
  - unfold append_row. cbn [List.app]. rewrite !get_calorie_goal_titled.
    rewrite filter_app. cbn [filter col_A col_B eq_str].
    assert (String.eqb u other = false) as ->.
    { apply String.eqb_neq. congruence. }
    cbn [andb]. now rewrite app_nil_r.
Qed.

Lemma save_keeps_other_users_goal_witness :
  get_calorie_goal
    (settings_frame
       (snd (set_calorie_goal true
               [TITLE_ROW;
                mkSetting (CStr "Divyanshi") (CStr "Calorie Goal")
                          (CNum 1600)]
               "Suyash" 1850)))
    "Divyanshi"
  = get_calorie_goal
      (settings_frame
         [TITLE_ROW;
          mkSetting (CStr "Divyanshi") (CStr "Calorie Goal") (CNum 1600)])
      "Divyanshi".
Proof.
  apply (save_keeps_other_users_goal "Suyash" "Divyanshi" 1850
           [mkSetting (CStr "Divyanshi") (CStr "Calorie Goal") (CNum 1600)]);
    discriminate.
Defined.

(** X11: when the sheet holds several "Calorie Goal" rows for a user, the
    first one decides: the goal read is the one read from a sheet with
    that row alone, whatever the rows before it (none of them a goal of the
    user) and all the rows after it hold; a whole number in its value cell
    is the goal. *)
Theorem first_goal_row_decides (u : string) (pre post : list SettingRow)
        (v : cell) :
  Forall (fun r => eq_str (col_A r) u && eq_str (col_B r) "Calorie Goal"
                   = false) pre ->
  get_calorie_goal
    (settings_frame
       (TITLE_ROW :: pre
          ++ mkSetting (CStr u) (CStr "Calorie Goal") v :: post)) u
  = get_calorie_goal
      (settings_frame
         [TITLE_ROW; mkSetting (CStr u) (CStr "Calorie Goal") v]) u
  /\ (forall g, v = CNum (inject_Z g) ->
        get_calorie_goal
          (settings_frame
             (TITLE_ROW :: pre
                ++ mkSetting (CStr u) (CStr "Calorie Goal") v :: post)) u
        = Ok g).
Proof.
  intros Hpre.
  assert (Hfirst :
    get_calorie_goal
      (settings_frame
         (TITLE_ROW :: pre
            ++ mkSetting (CStr u) (CStr "Calorie Goal") v :: post)) u
    = py_int v).
  { rewrite get_calorie_goal_titled, filter_app.
    assert (filter (fun r => eq_str (col_A r) u
                             && eq_str (col_B r) "Calorie Goal") pre = [])
      as ->.
    { induction Hpre as [|r pre Hr _ IH]; [reflexivity|].
      simpl. now rewrite Hr. }
    cbn [List.app filter col_A col_B eq_str]. rewrite String.eqb_refl.
    reflexivity. }
  split.
  - rewrite Hfirst, get_calorie_goal_titled.
    cbn [filter col_A col_B eq_str]. rewrite String.eqb_refl.
    reflexivity.
  - intros g ->. rewrite Hfirst. apply py_int_goal.
Qed.

Lemma first_goal_row_decides_witness :
  get_calorie_goal
    (settings_frame
       (TITLE_ROW
          :: [mkSetting (CStr "Divyanshi") (CStr "Calorie Goal") (CNum 1600)]
          ++ mkSetting (CStr "Suyash") (CStr "Calorie Goal")
                       (CNum (inject_Z 1800))
          :: [mkSetting (CStr "Suyash") (CStr "Calorie Goal") (CNum 2500)]))
    "Suyash" = Ok 1800.
Proof.
  apply (first_goal_row_decides "Suyash"
           [mkSetting (CStr "Divyanshi") (CStr "Calorie Goal") (CNum 1600)]
           [mkSetting (CStr "Suyash") (CStr "Calorie Goal") (CNum 2500)]
           (CNum (inject_Z 1800))).
  - repeat constructor.
  - reflexivity.
Defined.

(** X12: [set_calorie_goal] never removes or re-keys a row: whether it
    succeeds or not, every row that was in the sheet is still at its place
    with the same cells in columns A and B, a row whose key is not the user
    is unchanged altogether, and at most one row is added. *)
Theorem set_goal_keeps_rows (ok : bool) (ws : worksheet) (u : string)
        (g : Z) :
  let ws' := snd (set_calorie_goal ok ws u g) in
  (List.length ws <= List.length ws' <= S (List.length ws))%nat
  /\ map col_A (firstn (List.length ws) ws') = map col_A ws
  /\ map col_B (firstn (List.length ws) ws') = map col_B ws
  /\ (forall j r, nth_error ws j = Some r ->
                  eq_str (col_A r) u = false ->
                  nth_error ws' j = Some r).
Proof.
  cbv zeta. unfold set_calorie_goal.
  destruct ok; cbn [snd];
    [destruct (find_in_column1 u ws) as [i|] eqn:Hf; cbn [snd]|].
  - rewrite length_update.
    rewrite (firstn_all2 (n := List.length ws)
               (update_cell3 i (CNum (inject_Z g)) ws))
      by (rewrite length_update; lia).
    split; [lia|].
    assert (Hcols : forall v k w,
               map col_A (update_cell3 k v w) = map col_A w
               /\ map col_B (update_cell3 k v w) = map col_B w).
    { intros v k w. revert k.
      induction w as [|r w IH]; intros [|k]; simpl; try tauto.
      destruct (IH k) as [-> ->]. tauto. }
    split; [apply Hcols|]. split; [apply Hcols|].
    clear Hcols. revert i Hf.
    induction ws as [|r0 ws IH]; intros i Hf j r Hj Hr;
      [destruct j; discriminate|].
    simpl in Hf. destruct (eq_str (col_A r0) u) eqn:E.
    + injection Hf as <-. destruct j as [|j]; simpl in Hj |- *.
      * injection Hj as ->. congruence.
      * exact Hj.
    + destruct (find_in_column1 u ws) as [k|]; [|discriminate].
      injection Hf as <-. destruct j as [|j]; simpl in Hj |- *.
      * exact Hj.
      * now apply (IH k eq_refl).
  - unfold append_row. rewrite length_app. simpl.
    rewrite firstn_app, firstn_all, Nat.sub_diag. simpl.
    rewrite app_nil_r. repeat split; try lia.
    intros j r Hj _. rewrite nth_error_app1; [exact Hj|].
    apply nth_error_Some. congruence.
  - rewrite firstn_all. repeat split; try lia. tauto.
Qed.

Lemma set_goal_keeps_rows_witness :
  nth_error
    (snd (set_calorie_goal true
            [TITLE_ROW;
             mkSetting (CStr "Divyanshi") (CStr "Calorie Goal") (CNum 1600);
             mkSetting (CStr "Suyash") (CStr "Calorie Goal") (CNum 2000)]
            "Suyash" 1850)) 1
  = Some (mkSetting (CStr "Divyanshi") (CStr "Calorie Goal") (CNum 1600)).
Proof.
  apply (set_goal_keeps_rows true
           [TITLE_ROW;
            mkSetting (CStr "Divyanshi") (CStr "Calorie Goal") (CNum 1600);
            mkSetting (CStr "Suyash") (CStr "Calorie Goal") (CNum 2000)]
           "Suyash" 1850); reflexivity.
Defined.

(** ** The items of a submission *)

Lemma split_lines_whitespace (w s l : string) (ls : list string) :
  In w WHITESPACE -> split_lines s = l :: ls ->
  split_lines (w ++ s) = (w ++ l)%string :: ls
  \/ split_lines (w ++ s) = EmptyString :: l :: ls.
Proof.
  intros Hw E.
  each_whitespace Hw; subst w; cbn [append split_lines]; rewrite ?E;
    cbn; rewrite ?E; auto.
Qed.

Lemma blank_lines (s : string) : blank s -> Forall blank (split_lines s).
Proof.
  induction 1 as [|w s Hw Hs IH].
  - repeat constructor.
  - pose proof (split_lines_nonempty s) as Hne.
    destruct (split_lines s) as [|l ls] eqn:E; [contradiction|].
    inversion IH as [|? ? Hl Hls]; subst.
    destruct (split_lines_whitespace w s l ls Hw E) as [-> | ->].
    + constructor; [|assumption]. now constructor.
    + constructor; [constructor|]. now constructor.
Qed.

Lemma items_of_input_blank (items_input : string) :
  items_of_input items_input = [] <-> blank items_input.
Proof.
  split.
  - intros E. destruct (truthy (strip items_input)) eqn:Ht.
    + apply truthy_strip in Ht.
      now apply items_of_input_nonempty in Ht.
    + now apply falsy_strip.
  - intros Hb. apply blank_lines in Hb. unfold items_of_input.
    induction Hb as [|l ls Hl _ IH]; [reflexivity|].
    cbn [filter]. apply falsy_strip in Hl. now rewrite Hl.
Qed.

(** X13: the items sent to the estimator and logged are the lines of the
    input that are not blank, in their order, each without the white space
    at its two ends; none of them is empty or starts or ends with a
    white-space character; there is at least one of them exactly when the
    input is not blank, and never more than the input has lines. *)
Theorem items_are_stripped (items_input : string) :
  items_of_lines (split_lines items_input) (items_of_input items_input)
  /\ Forall (fun it =>
               it <> EmptyString
               /\ (forall w rest, In w WHITESPACE ->
                                  it <> (w ++ rest)%string)
               /\ (forall w rest, In w WHITESPACE ->
                                  it <> (rest ++ w)%string))
            (items_of_input items_input)
  /\ (items_of_input items_input = [] <-> blank items_input)
  /\ (List.length (items_of_input items_input)
      <= List.length (split_lines items_input))%nat.
Proof.
  split; [|split; [|split]].
  - apply items_of_lines_strip.
  - unfold items_of_input.
    apply Forall_forall. intros it Hit. apply in_map_iff in Hit.
    destruct Hit as (line & <- & Hline). apply filter_In in Hline.
    destruct Hline as [_ Hline].
    destruct (strip_spec line) as (_ & Hpre & Hsuf).
    split; [|split; assumption].
    intros E. rewrite E in Hline. discriminate.
  - apply items_of_input_blank.
  - unfold items_of_input. rewrite length_map. apply filter_length_le.
Qed.

(** ** Submitting a meal *)

Lemma float_of_int_overflow (z : Z) :
  2 ^ 1024 <= Z.abs z -> float_of_int z = Raise "OverflowError".
Proof.
  intros H. unfold float_of_int. cbv zeta.
  set (a := Z.abs z) in *.
  assert (H53 : 2 ^ 53 <= 2 ^ 1024) by (apply Z.pow_le_mono_r; lia).
  destruct (Z.ltb_spec a (2 ^ 53)) as [Hlt|_]; [lia|].
  assert (Hpos : 0 < a) by lia.
  assert (HL : 1024 <= Z.log2 a).
  { rewrite <- (Z.log2_pow2 1024) by lia. now apply Z.log2_le_mono. }
  destruct (Z.log2_spec a Hpos) as [Hlo _].
  set (e := Z.log2 a - 52) in *.
  assert (He : 0 <= e) by (unfold e; lia).
  assert (Hsplit : 2 ^ Z.log2 a = 2 ^ 52 * 2 ^ e).
  { rewrite <- Z.pow_add_r by lia. f_equal. unfold e. lia. }
  assert (Hpe : 0 < 2 ^ e) by (apply Z.pow_pos_nonneg; lia).
  assert (Hm : 2 ^ 52 <= a / 2 ^ e).
  { rewrite <- (Z.div_mul (2 ^ 52) (2 ^ e)) by lia.
    apply Z.div_le_mono; lia. }
  assert (Hm' : a / 2 ^ e
                <= (if (2 ^ (e - 1) <? a mod 2 ^ e)
                       || ((2 ^ (e - 1) =? a mod 2 ^ e)
                           && Z.odd (a / 2 ^ e))
                    then a / 2 ^ e + 1 else a / 2 ^ e)).
  { destruct ((2 ^ (e - 1) <? a mod 2 ^ e)
              || ((2 ^ (e - 1) =? a mod 2 ^ e) && Z.odd (a / 2 ^ e)));
      lia. }
  assert (HL2 : 2 ^ 1024 <= 2 ^ Z.log2 a)
    by (apply Z.pow_le_mono_r; lia).
  match goal with
  | |- (if 2 ^ 1024 <=? ?v then _ else _) = _ =>
      destruct (Z.leb_spec (2 ^ 1024) v) as [_|Hv]; [reflexivity|]
  end.
  exfalso. nia.
Qed.

Section SubmissionFacts.

Variable float_of_str : string -> option Q.
Variable json_dumps : json -> string.


Lemma new_row_dict_raises (u now : string) (selected_date : Z)
      (meal_name : string) (items_list : list string)
      (parsed_data totals : json) (k e : string) :
  get_totals parsed_data = Ok totals ->
  In k NUMERIC_COLUMNS ->
  total_field float_of_str totals k = Raise e ->
  exists e',
    new_row_dict float_of_str json_dumps u now selected_date meal_name
                 items_list parsed_data = Raise e'.
Proof.
  intros Hget Hk He. unfold new_row_dict. rewrite Hget. cbn [bind].
  destruct (total_field float_of_str totals "calories_kcal") as [cal|e1]
    eqn:Hcal; [|eexists; reflexivity].
  destruct (total_field float_of_str totals "protein_g") as [pro|e2]
    eqn:Hpro; [|eexists; reflexivity].
  destruct (total_field float_of_str totals "carbs_g") as [car|e3]
    eqn:Hcar; [|eexists; reflexivity].
  destruct (total_field float_of_str totals "fat_g") as [fat|e4]
    eqn:Hfat; [|eexists; reflexivity].
  destruct (total_field float_of_str totals "fiber_g") as [fib|e5]
    eqn:Hfib; [|eexists; reflexivity].
  exfalso. simpl in Hk.
  destruct Hk as [<-|[<-|[<-|[<-|[<-|[]]]]]]; congruence.
Qed.

(** X15: answers from which no row is built.  An answer that is not an
    object, or whose totals are not an object, raises AttributeError; a
    null under the calories key raises TypeError; and a null, a list, an
    object or an integer of magnitude 2^1024 or more under any of the five
    keys of the totals makes the construction of the row raise. *)
Theorem unusable_answer_builds_no_row (u now : string) (selected_date : Z)
        (meal_name : string) (items_list : list string)
        (parsed_data : json) :
  let built := new_row_dict float_of_str json_dumps u now selected_date
                            meal_name items_list parsed_data in
  ((forall fields, parsed_data <> JObj fields) ->
   built = Raise "AttributeError")
  /\ (forall fields t,
         parsed_data = JObj fields ->
         dict_get "totals" fields = Some t ->
         (forall members, t <> JObj members) ->
         built = Raise "AttributeError")
  /\ (totals_member parsed_data "calories_kcal" = Some JNull ->
      built = Raise "TypeError")
  /\ (forall k v,
         In k NUMERIC_COLUMNS ->
         totals_member parsed_data k = Some v ->
         v = JNull \/ (exists l, v = JArr l) \/ (exists f, v = JObj f)
         \/ (exists z, v = JInt z /\ 2 ^ 1024 <= Z.abs z) ->
         exists e, built = Raise e).
Proof.
  cbv zeta. split; [|split; [|split]].
  - intros Hno. unfold new_row_dict.
    destruct parsed_data as [| | | | | |fields]; try reflexivity.
    now contradiction (Hno fields).
  - intros fields t -> Ht Hno. unfold new_row_dict.
    cbn [get_totals]. rewrite Ht. cbn [bind].
    destruct t as [| | | | | |members]; try reflexivity.
    now contradiction (Hno members).
  - intros Hm.
    assert (exists totals, get_totals parsed_data = Ok totals)
      as [totals Hget].
    { destruct parsed_data as [| | | | | |fields]; try discriminate.
      cbn [totals_member get_totals] in *.
      destruct (dict_get "totals" fields); [|discriminate].
      eexists. reflexivity. }
    unfold new_row_dict. rewrite Hget. cbn [bind].
    now rewrite (total_field_member float_of_str _ _ _ _ Hm Hget).
  - intros k v Hk Hm Hv.
    assert (exists totals, get_totals parsed_data = Ok totals)
      as [totals Hget].
    { destruct parsed_data as [| | | | | |fields]; try discriminate.
      cbn [totals_member get_totals] in *.
      destruct (dict_get "totals" fields); [|discriminate].
      eexists. reflexivity. }
    assert (exists e, py_float float_of_str v = Raise e) as [e He].
    { destruct Hv as [->|[[l ->]|[[f ->]|(z & -> & Hz)]]];
        try (eexists; reflexivity).
      exists "OverflowError"%string. cbn [py_float].
      now apply float_of_int_overflow. }
    apply (new_row_dict_raises u now selected_date meal_name items_list
                               parsed_data totals k e Hget Hk).
    now rewrite (total_field_member float_of_str _ _ _ _ Hm Hget).
Qed.

(** X16: when the row is built but the sheet refuses it, the row is kept
    in the session's frame, the error and then the success message are both
    shown, and the sheet and the cache are as before; after the refresh
    button and the next run the session holds the sheet's rows, without
    that row. *)
Theorem failed_write_keeps_local_row (meal_name items_input : string)
        (selected_date : Z) (now : string) (parsed_data : json)
        (a : app) (d : NewRow) (df : DataFrame (Row cell)) :
  ~ blank items_input ->
  logs_df a = Some df ->
  new_row_dict float_of_str json_dumps (user a) now selected_date meal_name
               (items_of_input items_input) parsed_data = Ok d ->
  let a' := on_log_meal float_of_str json_dumps meal_name items_input
                        selected_date now (Some parsed_data) false a in
  logs_ws a' = logs_ws a
  /\ logs_df a' = Some (concat_row df (new_row_df d))
  /\ messages a'
     = messages a ++ [Error "Error saving to Google Sheets";
                      Success (meal_name ++ " logged!")]
  /\ cache a' = cache a
  /\ logs_df (load_session true (on_refresh a'))
     = Some (frame_of_records LOGS_COLUMNS (logs_ws a)).
Proof.
  intros Hnb Hdf Hd. cbv zeta. unfold on_log_meal.
  apply truthy_strip in Hnb. rewrite Hnb. cbn [user call_estimator].
  rewrite Hd. cbn [logs_df call_estimator]. rewrite Hdf.
  cbn. rewrite <- app_assoc. repeat split.
Qed.

End SubmissionFacts.

Lemma items_are_stripped_witness :
  items_of_input (bytes [32; 194; 160; 9]%nat) = []
  /\ items_of_input (" 2 idli " ++ String NEWLINE "  "
                     ++ String NEWLINE "1 cup sambar")
     = ["2 idli"; "1 cup sambar"]%string
  /\ Forall (fun it => it <> EmptyString)
            (items_of_input (" 2 idli " ++ String NEWLINE "  "
                             ++ String NEWLINE "1 cup sambar")).
Proof.
  split; [|split].
  - apply (items_are_stripped (bytes [32; 194; 160; 9]%nat)).
    apply falsy_strip. reflexivity.
  - reflexivity.
  - destruct (items_are_stripped (" 2 idli " ++ String NEWLINE "  "
                                  ++ String NEWLINE "1 cup sambar"))
      as (_ & H & _).
    eapply Forall_impl; [|exact H]. intros it Hit. apply Hit.
Defined.

Lemma unusable_answer_builds_no_row_witness :
  new_row_dict (fun _ => None) (fun _ => EmptyString) "Suyash" "now" 10
               "Lunch" ["1 bowl rice"%string] (JArr [])
  = Raise "AttributeError"
  /\ new_row_dict (fun _ => None) (fun _ => EmptyString) "Suyash" "now" 10
                  "Lunch" ["1 bowl rice"%string]
                  (JObj [("totals"%string,
                          JObj [("calories_kcal"%string, JNull)])])
     = Raise "TypeError"
  /\ exists e,
       new_row_dict (fun _ => None) (fun _ => EmptyString) "Suyash" "now"
                    10 "Lunch" ["1 bowl rice"%string]
                    (JObj [("totals"%string,
                            JObj [("fat_g"%string, JInt (2 ^ 1024))])])
       = Raise e.
Proof.
  split; [|split].
  - apply (unusable_answer_builds_no_row
             (fun _ => None) (fun _ => EmptyString) "Suyash" "now" 10
             "Lunch" ["1 bowl rice"%string] (JArr [])).
    discriminate.
  - apply (unusable_answer_builds_no_row
             (fun _ => None) (fun _ => EmptyString) "Suyash" "now" 10
             "Lunch" ["1 bowl rice"%string]
             (JObj [("totals"%string,
                     JObj [("calories_kcal"%string, JNull)])])).
    reflexivity.
  - destruct (unusable_answer_builds_no_row
                (fun _ => None) (fun _ => EmptyString) "Suyash" "now" 10
                "Lunch" ["1 bowl rice"%string]
                (JObj [("totals"%string,
                        JObj [("fat_g"%string, JInt (2 ^ 1024))])]))
      as (_ & _ & _ & H).
    apply (H "fat_g"%string (JInt (2 ^ 1024))).
    + simpl. tauto.
    + reflexivity.
    + right. right. right. exists (2 ^ 1024). split; [reflexivity|].
      rewrite Z.abs_eq; [apply Z.le_refl | apply Z.pow_nonneg; lia].
Defined.


Lemma failed_write_keeps_local_row_witness :
  let a := load_session true (cold_start "Suyash" [] [TITLE_ROW]) in
  let a' := on_log_meal (fun _ => None) (fun _ => EmptyString) "Dinner"
              "2 roti" 10 "now" (Some (JObj [])) false a in
  ~ blank "2 roti"
  /\ logs_ws a' = []
  /\ messages a' = [Error "Error saving to Google Sheets";
                    Success "Dinner logged!"]
  /\ logs_df (load_session true (on_refresh a')) = Some empty_frame.
Proof.
  cbv zeta.
  assert (Hnb : ~ blank "2 roti") by (apply truthy_strip; reflexivity).
  split; [exact Hnb|].
  destruct (failed_write_keeps_local_row
              (fun _ => None) (fun _ => EmptyString) "Dinner" "2 roti" 10
              "now" (JObj [])
              (load_session true (cold_start "Suyash" [] [TITLE_ROW]))
              (mkNewRow "Suyash" "now" 10 "Dinner" "2 roti" 0 0 0 0 0
                        EmptyString)
              empty_frame Hnb eq_refl eq_refl)
    as (Hws & _ & Hmsg & _ & Hre).
  split; [exact Hws|]. split; [exact Hmsg | exact Hre].
Defined.

(** ** A logged meal in the daily summary *)

Lemma concat_row_records (logs : list (Row cell)) (r : Row cell) :
  concat_row (frame_of_records LOGS_COLUMNS logs) r
  = frame_of_records LOGS_COLUMNS (logs ++ [r]).
Proof. destruct logs; reflexivity. Qed.

Lemma matches_new_row (d : NewRow) (u : string) (day : Z) :
  matches u day (new_row_df d)
  = String.eqb (d_User d) u && (d_Date d =? day).
Proof.
  unfold matches, new_row_df. cbn [User Date eq_str].
  rewrite <- date_is_on_dayb. cbn [date_is]. f_equal.
  unfold dt_date, midnight. now rewrite Z.div_mul by discriminate.
Qed.

Lemma field_values_app (f : Row cell -> cell) (l l' : list (Row cell)) :
  field_values f (l ++ l') = field_values f l ++ field_values f l'.
Proof. apply map_app. Qed.

Section LoggedMealFacts.

Variable col_sum : string -> list Q -> Q.
Variable float_of_str : string -> option Q.
Variable json_dumps : json -> string.

(** X18: once a meal is logged, the daily summary computed from the
    session's frame for the session's user and the selected day is, for
    each of the five columns, the column sum over the values of the
    entries that matched before, in their order, followed by the number of
    the new row; for any other user or any other day the values summed are
    those of the entries that matched before, and no other. *)
Theorem logged_meal_adds_to_day (meal_name items_input : string)
        (selected_date : Z) (now : string) (parsed_data : json)
        (write_ok : bool) (a : app) (logs : list (Row cell)) (d : NewRow) :
  (forall c, col_sum c [] = 0%Q) ->
  ~ blank items_input ->
  logs_df a = Some (frame_of_records LOGS_COLUMNS logs) ->
  new_row_dict float_of_str json_dumps (user a) now selected_date meal_name
               (items_of_input items_input) parsed_data = Ok d ->
  let a' := on_log_meal float_of_str json_dumps meal_name items_input
                        selected_date now (Some parsed_data) write_ok a in
  exists df',
    logs_df a' = Some df'
    /\ (let m := filter (matches (user a) selected_date) logs in
        let after := daily_totals_by col_sum
                       (get_daily_logs df' (user a) selected_date) in
        total_calories after
        = col_sum "calories_kcal"%string
                  (field_values calories_kcal m ++ [d_calories_kcal d])
        /\ total_protein after
           = col_sum "protein_g"%string
                     (field_values protein_g m ++ [d_protein_g d])
        /\ total_carbs after
           = col_sum "carbs_g"%string
                     (field_values carbs_g m ++ [d_carbs_g d])
        /\ total_fat after
           = col_sum "fat_g"%string
                     (field_values fat_g m ++ [d_fat_g d])
        /\ total_fiber after
           = col_sum "fiber_g"%string
                     (field_values fiber_g m ++ [d_fiber_g d]))
    /\ (forall u day,
           u <> user a \/ day <> selected_date ->
           let m := filter (matches u day) logs in
           daily_totals_by col_sum (get_daily_logs df' u day)
           = mkTotals
               (col_sum "calories_kcal"%string
                        (field_values calories_kcal m))
               (col_sum "protein_g"%string (field_values protein_g m))
               (col_sum "carbs_g"%string (field_values carbs_g m))
               (col_sum "fat_g"%string (field_values fat_g m))
               (col_sum "fiber_g"%string (field_values fiber_g m))).
Proof.
  intros H0 Hnb Hdf Hd. cbv zeta.
  destruct (new_row_dict_fields _ _ _ _ _ _ _ _ _ Hd)
    as (_ & _ & _ & _ & _ & _ & _ & _ & Huser & _ & Hdate).
  exists (frame_of_records LOGS_COLUMNS (logs ++ [new_row_df d])).
  split.
  { unfold on_log_meal. apply truthy_strip in Hnb. rewrite Hnb.
    cbn [user call_estimator]. rewrite Hd.
    cbn [logs_df call_estimator]. rewrite Hdf, concat_row_records.
    now destruct write_ok. }
  assert (Hc : forall u day col f g,
             In col NUMERIC_COLUMNS ->
             (forall r, f (coerce_row r) = value (g r)) ->
             column_total_by col_sum col f
               (get_daily_logs
                  (frame_of_records LOGS_COLUMNS (logs ++ [new_row_df d]))
                  u day)
             = col_sum col
                 (field_values g
                    (filter (matches u day) (logs ++ [new_row_df d])))).
  { intros u day col f g Hcol Hfg. now apply column_total_sum. }
  unfold daily_totals_by.
  cbn [total_calories total_protein total_carbs total_fat total_fiber].
  split.
  - rewrite (Hc _ _ _ _ calories_kcal), (Hc _ _ _ _ protein_g),
      (Hc _ _ _ _ carbs_g), (Hc _ _ _ _ fat_g), (Hc _ _ _ _ fiber_g)
      by (first [simpl; tauto | intros r; apply value_fillna]).
    rewrite filter_app. cbn [filter]. rewrite matches_new_row.
    rewrite Huser, Hdate, String.eqb_refl, Z.eqb_refl. cbn [andb].
    rewrite !field_values_app. repeat split.
  - intros u day Hother.
    rewrite (Hc _ _ _ _ calories_kcal), (Hc _ _ _ _ protein_g),
      (Hc _ _ _ _ carbs_g), (Hc _ _ _ _ fat_g), (Hc _ _ _ _ fiber_g)
      by (first [simpl; tauto | intros r; apply value_fillna]).
    rewrite filter_app. cbn [filter]. rewrite matches_new_row.
    assert (String.eqb (d_User d) u && (d_Date d =? day) = false) as ->.
    { rewrite Huser, Hdate. apply andb_false_iff.
      destruct Hother as [Hu|Hday]; [left | right].
      - apply String.eqb_neq. congruence.
      - apply Z.eqb_neq. congruence. }
    now rewrite app_nil_r.
Qed.

End LoggedMealFacts.

(** After 240 kcal are logged on a day that held 300 kcal, the calories of
    the day are the sum of the two. *)
Lemma logged_meal_adds_to_day_witness :
  let a := load_session true
             (cold_start "Suyash" [log_at "Suyash" (midnight 10) 300]
                         [TITLE_ROW]) in
  let a' := on_log_meal (fun _ => None) (fun _ => EmptyString) "Dinner"
              "2 roti" 10 "now"
              (Some (JObj [("totals"%string,
                            JObj [("calories_kcal"%string, JNum 240)])]))
              true a in
  (forall c, exact_sum c [] = 0%Q)
  /\ ~ blank "2 roti"
  /\ exists df',
       logs_df a' = Some df'
       /\ total_calories
            (daily_totals_by exact_sum (get_daily_logs df' "Suyash" 10))
          = exact_sum "calories_kcal" [300%Q; 240%Q].
Proof.
  cbv zeta.
  assert (Hnb : ~ blank "2 roti") by (apply truthy_strip; reflexivity).
  split; [reflexivity|]. split; [exact Hnb|].
  destruct (logged_meal_adds_to_day
              exact_sum (fun _ => None) (fun _ => EmptyString) "Dinner"
              "2 roti" 10 "now"
              (JObj [("totals"%string,
                      JObj [("calories_kcal"%string, JNum 240)])])
              true
              (load_session true
                 (cold_start "Suyash" [log_at "Suyash" (midnight 10) 300]
                             [TITLE_ROW]))
              [log_at "Suyash" (midnight 10) 300]
              (mkNewRow "Suyash" "now" 10 "Dinner" "2 roti" 240 0 0 0 0
                        EmptyString)
              (fun c => eq_refl) Hnb eq_refl eq_refl)
    as (df' & Hdf & (Hcal & _) & _).
  exists df'. split; [exact Hdf | exact Hcal].
Defined.

(** ** More on the weekly trend *)

(** X19: which of its three information messages the weekly trend shows:
    the first without any log at all, the second when the user has no
    log, the third when the user has logs but none in the seven days; as
    soon as the user has a log in the window no message is shown (a chart
    is drawn, or the sum raises). *)
Theorem weekly_trend_messages (logs : list (Row cell)) (u : string)
        (end_date : Z) :
  (logs = [] ->
   weekly_trend logs u end_date
   = Ok (TrendInfo "Log some meals to see your weekly trend."))
  /\ (logs <> [] ->
      filter (fun r => eq_str (User r) u) logs = [] ->
      weekly_trend logs u end_date
      = Ok (TrendInfo "No meals logged for this user yet."))
  /\ (filter (fun r => eq_str (User r) u) logs <> [] ->
      filter (fun r => eq_str (User r) u
                       && date_between (Date r) (end_date - 6) end_date)
             logs = [] ->
      weekly_trend logs u end_date
      = Ok (TrendInfo "No meals logged in the selected 7-day period."))
  /\ (filter (fun r => eq_str (User r) u
                       && date_between (Date r) (end_date - 6) end_date)
             logs <> [] ->
      forall msg, weekly_trend logs u end_date <> Ok (TrendInfo msg)).
Proof.
  unfold weekly_trend.
  split; [|split; [|split]].
  - now intros ->.
  - intros Hne Hu. destruct logs as [|r l]; [contradiction|].
    unfold weekly_trend_by, display_weekly_trend_by.
    change (df_empty (frame_of_records LOGS_COLUMNS (r :: l))) with false.
    change (has_column "Date" (frame_of_records LOGS_COLUMNS (r :: l)))
      with true.
    cbn [orb negb frame_of_records]. unfold df_filter. cbn [columns rows].
    now rewrite df_empty_logs, Hu.
  - intros Hu Hw. destruct logs as [|r l]; [contradiction|].
    unfold weekly_trend_by, display_weekly_trend_by.
    change (df_empty (frame_of_records LOGS_COLUMNS (r :: l))) with false.
    change (has_column "Date" (frame_of_records LOGS_COLUMNS (r :: l)))
      with true.
    cbn [orb negb frame_of_records]. unfold df_filter. cbn [columns rows].
    rewrite !df_empty_logs, filter_filter, Hw.
    destruct (filter (fun r0 => eq_str (User r0) u) (r :: l));
      [contradiction | reflexivity].
  - intros Hw msg.
    rewrite (weekly_chart series_sum series_mean u end_date logs Hw).
    destruct (groupby_date_sum _ _) as [g|e]; cbn [bind]; [|discriminate].
    destruct (numeric_series g); cbn [bind]; discriminate.
Qed.

Lemma weekly_trend_messages_witness :
  weekly_trend [] "Suyash" 10
  = Ok (TrendInfo "Log some meals to see your weekly trend.")
  /\ weekly_trend [log_at "Divyanshi" (midnight 10) 300] "Suyash" 10
     = Ok (TrendInfo "No meals logged for this user yet.")
  /\ weekly_trend [log_at "Suyash" (midnight 3) 300] "Suyash" 10
     = Ok (TrendInfo "No meals logged in the selected 7-day period.")
  /\ weekly_trend [log_at "Suyash" (midnight 4) 300] "Suyash" 10
     <> Ok (TrendInfo "No meals logged in the selected 7-day period.").
Proof.
  split; [|split; [|split]].
  - now apply (weekly_trend_messages [] "Suyash" 10).
  - apply (weekly_trend_messages [log_at "Divyanshi" (midnight 10) 300]
                                 "Suyash" 10);
      [discriminate | reflexivity].
  - apply (weekly_trend_messages [log_at "Suyash" (midnight 3) 300]
                                 "Suyash" 10);
      [discriminate | reflexivity].
  - apply (weekly_trend_messages [log_at "Suyash" (midnight 4) 300]
                                 "Suyash" 10).
    discriminate.
Defined.



(** ** More on the progress bar *)

Lemma py_min_le (a b c : Q) :
  (a <= b)%Q -> (py_min a c <= py_min b c)%Q.
Proof.
  intros H. unfold py_min.
  destruct (Qlt_le_dec c a) as [Ha|Ha], (Qlt_le_dec c b) as [Hb|Hb].
  - apply Qle_refl.
  - exfalso. apply (Qlt_irrefl c).
    apply Qlt_le_trans with a; [assumption|].
    now apply Qle_trans with b.
  - assumption.
  - assumption.
Qed.

(** X21: the progress shown never decreases when the day's total grows,
    and it is full as soon as the total reaches a positive goal. *)
Theorem progress_grows_to_full (total_calories : Q) (goal : Z) :
  (forall more, (total_calories <= more)%Q ->
     (calorie_progress total_calories goal <= calorie_progress more goal)%Q)
  /\ (0 < goal -> (inject_Z goal <= total_calories)%Q ->
      (calorie_progress total_calories goal == 1)%Q).
Proof.
  unfold calorie_progress.
  destruct (Z.gtb_spec goal 0) as [Hpos|Hzero].
  - assert (Hq : (0 < inject_Z goal)%Q).
    { change 0%Q with (inject_Z 0). rewrite <- Zlt_Qlt. lia. }
    split.
    + intros more Hmore. apply py_min_le.
      apply Qmult_le_compat_r; [assumption|].
      apply Qlt_le_weak, Qinv_lt_0_compat, Hq.
    + intros _ Hreach.
      assert (Hratio : (1 <= total_calories / inject_Z goal)%Q).
      { apply Qle_shift_div_l; [exact Hq|]. now rewrite Qmult_1_l. }
      unfold py_min.
      destruct (Qlt_le_dec 1 (total_calories / inject_Z goal));
        [reflexivity | now apply Qle_antisym].
  - split.
    + intros more _. apply Qle_refl.
    + lia.
Qed.

Lemma progress_grows_to_full_witness :
  (calorie_progress 1500 2000 <= calorie_progress 1800 2000)%Q
  /\ (calorie_progress 2600 2000 == 1)%Q.
Proof.
  destruct (progress_grows_to_full 1500 2000) as (H1 & _).
  destruct (progress_grows_to_full 2600 2000) as (_ & H3).
  split; [apply H1; discriminate|].
  apply H3; [lia | discriminate].
Defined.
